(** * validate-skill.py: the 29-point skill checklist

    A shallow embedding of [scripts/validate-skill.py].  Python text is
    a list of characters; the characters are the code points below 256
    (Rocq's [ascii]), and every string operation of the script is given
    with the meaning Python has on that range.  The regular expressions
    of the script are kept as syntax trees and run by a backtracking
    matcher that explores alternatives in the order Python's [re] does;
    the first alternative that succeeds is the match. *)

From Stdlib Require Import Ascii String List Arith Bool Lia.
From Stdlib Require Import Numbers.DecimalString.
Import ListNotations.

Set Warnings "-abstract-large-number".

Local Open Scope list_scope.

(** ** Text *)

Definition text := list ascii.

(** A string literal of the script. *)
Definition lit (s : string) : text := list_ascii_of_string s.
Arguments lit s%_string.

Definition newline : ascii := ascii_of_nat 10.

Module Py.

(** [str.isspace] on one character, which is also what [\s], [strip()]
    and [split()] test: TAB..CR, FS..US, space, NEL and NBSP. *)
Definition isspace (c : ascii) : bool :=
  let n := nat_of_ascii c in
  ((9 <=? n) && (n <=? 13)) || ((28 <=? n) && (n <=? 32))
  || (n =? 133) || (n =? 160).

(** [str.lower] on one character: A-Z, and the Latin-1 capitals
    0xC0..0xDE except the multiplication sign 0xD7. *)
Definition lower_char (c : ascii) : ascii :=
  let n := nat_of_ascii c in
  if ((65 <=? n) && (n <=? 90))
     || ((192 <=? n) && (n <=? 222) && negb (n =? 215))
  then ascii_of_nat (n + 32) else c.

Definition lower (s : text) : text := map lower_char s.

Fixpoint lstrip_by (p : ascii -> bool) (s : text) : text :=
  match s with
  | c :: s' => if p c then lstrip_by p s' else s
  | [] => []
  end.

Definition rstrip_by (p : ascii -> bool) (s : text) : text :=
  rev (lstrip_by p (rev s)).

Definition strip_by (p : ascii -> bool) (s : text) : text :=
  rstrip_by p (lstrip_by p s).

(** [s.strip()] *)
Definition strip (s : text) : text := strip_by isspace s.

(** [s.strip(chars)] *)
Definition strip_chars (chars : text) (s : text) : text :=
  strip_by (fun c => existsb (Ascii.eqb c) chars) s.

(** [s.split()]: the maximal runs of non-space characters.  [cur] is
    the run being read, reversed. *)
Fixpoint split_acc (cur : text) (s : text) : list text :=
  match s with
  | [] => match cur with [] => [] | _ => [rev cur] end
  | c :: s' =>
      if isspace c
      then match cur with
           | [] => split_acc [] s'
           | _ => rev cur :: split_acc [] s'
           end
      else split_acc (c :: cur) s'
  end.

Definition split (s : text) : list text := split_acc [] s.

(** [sep.join(parts)] *)
Fixpoint join (sep : text) (parts : list text) : text :=
  match parts with
  | [] => []
  | [p] => p
  | p :: ps => p ++ sep ++ join sep ps
  end.

(** [s.startswith(p)] and [s.endswith(p)] *)
Fixpoint startswith (p s : text) : bool :=
  match p, s with
  | [], _ => true
  | a :: p', b :: s' => Ascii.eqb a b && startswith p' s'
  | _ :: _, [] => false
  end.

Definition endswith (p s : text) : bool := startswith (rev p) (rev s).

(** [p in s] for two strings: [p] occurs in [s]. *)
Fixpoint contains (p s : text) : bool :=
  startswith p s
  || match s with
     | [] => false
     | _ :: s' => contains p s'
     end.

(** [str(n)] and [format(n, ",")] for a natural number. *)
Definition str_of_nat (n : nat) : text :=
  lit (NilEmpty.string_of_uint (Nat.to_uint n)).

Fixpoint group3 (k : nat) (digits_rev : text) : text :=
  match digits_rev with
  | [] => []
  | d :: ds =>
      match k with
      | 0 => match ds with
             | [] => [d]
             | _ => d :: ","%char :: group3 2 ds
             end
      | S k' => d :: group3 k' ds
      end
  end.

Definition str_of_nat_commas (n : nat) : text :=
  rev (group3 2 (rev (str_of_nat n))).

End Py.

(** ** Regular expressions, as Python's [re] runs them *)

Module Re.

Record flags := Flags {
  IGNORECASE : bool;
  MULTILINE : bool;
  DOTALL : bool
}.

Definition no_flags : flags := Flags false false false.

(** The constructs the script's patterns use.  [Star true r] is [r*],
    [Star false r] is [r*?]; [r+] is [r] followed by [r*]; [Opt r] is
    [r?]; [Group r] is the one capturing group a pattern has, and
    [(?: )] needs no constructor.  A class is a list of inclusive
    ranges.  No pattern of the script puts a class under IGNORECASE. *)
Inductive regex :=
| Eps
| Lit (c : ascii)
| Dot
| Space
| Class (ranges : list (ascii * ascii))
| Bol
| Eol
| Cat (r1 r2 : regex)
| Star (greedy : bool) (r : regex)
| Opt (r : regex)
| Group (r : regex).

Definition Plus (greedy : bool) (r : regex) : regex :=
  Cat r (Star greedy r).

(** The parts of a pattern, one after the other. *)
Fixpoint Seq (rs : list regex) : regex :=
  match rs with
  | [] => Eps
  | r :: rs' => Cat r (Seq rs')
  end.

(** The characters of a literal word. *)
Definition Word (w : string) : regex := Seq (map Lit (lit w)).
Arguments Word w%_string.

(** A position in the subject: the characters already passed (last
    one first), the characters ahead, and what group 1 holds. *)
Record cursor := Cursor {
  seen : text;
  rest : text;
  group1 : option text
}.

Definition start (s : text) : cursor := Cursor [] s None.

Definition in_class (ranges : list (ascii * ascii)) (c : ascii) : bool :=
  existsb (fun lh => (nat_of_ascii (fst lh) <=? nat_of_ascii c)
                     && (nat_of_ascii c <=? nat_of_ascii (snd lh)))
          ranges.

Definition lit_matches (fl : flags) (p c : ascii) : bool :=
  if IGNORECASE fl
  then Ascii.eqb (Py.lower_char c) (Py.lower_char p)
  else Ascii.eqb c p.

Definition dot_matches (fl : flags) (c : ascii) : bool :=
  DOTALL fl || negb (Ascii.eqb c newline).

(** Consume one character that satisfies [p]. *)
Definition step (p : ascii -> bool) (s : cursor) : list cursor :=
  match rest s with
  | c :: r => if p c then [Cursor (c :: seen s) r (group1 s)] else []
  | [] => []
  end.

(** [^]: the start of the subject, and under MULTILINE also just
    after a newline. *)
Definition at_bol (fl : flags) (s : cursor) : bool :=
  match seen s with
  | [] => true
  | c :: _ => MULTILINE fl && Ascii.eqb c newline
  end.

(** [$]: the end of the subject or just before its final newline, and
    under MULTILINE just before any newline. *)
Definition at_eol (fl : flags) (s : cursor) : bool :=
  match rest s with
  | [] => true
  | c :: r => Ascii.eqb c newline
              && (MULTILINE fl || match r with [] => true | _ => false end)
  end.

(** What group 1 holds once the group, entered at [s], is left at
    [s']. *)
Definition capture (s s' : cursor) : cursor :=
  Cursor (seen s') (rest s')
         (Some (firstn (length (rest s) - length (rest s')) (rest s))).

(** A repeat of a body whose matches are given by [body]: the ways to
    go round at most [n] times.  It only goes round again after an
    iteration that consumed something.  Greedy, the longer matches
    come first; lazy, the shorter ones. *)
Fixpoint star_loop (greedy : bool) (body : cursor -> list cursor)
         (n : nat) (s : cursor) {struct n} : list cursor :=
  match n with
  | 0 => [s]
  | S n' =>
      let more :=
        flat_map (fun s' => if length (rest s') <? length (rest s)
                            then star_loop greedy body n' s' else [])
                 (body s) in
      if greedy then more ++ [s] else s :: more
  end.

(** Every way [r] can match at [s], most preferred first.  The
    counter of a repeat starts above the number of characters ahead,
    so it never runs out. *)
Fixpoint run (fl : flags) (r : regex) (s : cursor) : list cursor :=
  match r with
  | Eps => [s]
  | Lit c => step (lit_matches fl c) s
  | Dot => step (dot_matches fl) s
  | Space => step Py.isspace s
  | Class ranges => step (in_class ranges) s
  | Bol => if at_bol fl s then [s] else []
  | Eol => if at_eol fl s then [s] else []
  | Cat r1 r2 => flat_map (run fl r2) (run fl r1 s)
  | Opt r1 => run fl r1 s ++ [s]
  | Group r1 => map (capture s) (run fl r1 s)
  | Star greedy r1 =>
      star_loop greedy (run fl r1) (S (length (rest s))) s
  end.

(** [re.match]: the preferred match at the start of the subject. *)
Definition rmatch (fl : flags) (r : regex) (s : text) : option cursor :=
  hd_error (run fl r (start s)).

(** [re.search]: the preferred match at the leftmost position that
    has one. *)
Fixpoint scan (fl : flags) (r : regex) (sn rs : text) : option cursor :=
  match run fl r (Cursor sn rs None) with
  | m :: _ => Some m
  | [] => match rs with
          | [] => None
          | c :: rs' => scan fl r (c :: sn) rs'
          end
  end.

Definition search (fl : flags) (r : regex) (s : text) : option cursor :=
  scan fl r [] s.

(** [m.group(1)]; the group of each pattern here takes part in every
    match. *)
Definition group (m : cursor) : text :=
  match group1 m with Some g => g | None => [] end.

End Re.

(** ** The script *)

(** *** Constants *)

Definition PASS_THRESHOLD : nat := 24.
Definition MAX_TOKENS : nat := 5000.
Definition MAX_NAME_LEN : nat := 64.
Definition MAX_DESC_LEN : nat := 1024.
Definition MIN_DESC_LEN : nat := 50.

Definition ch (s : string) : ascii :=
  match s with
  | String c _ => c
  | EmptyString => Ascii.zero
  end.
Arguments ch s%_string.

(** [r'^[a-z0-9-]+$'] *)
Definition NAME_REGEX : Re.regex :=
  Re.Seq [Re.Bol;
          Re.Plus true (Re.Class [(ch "a", ch "z"); (ch "0", ch "9");
                                  (ch "-", ch "-")]);
          Re.Eol].

Definition NATURAL_KEYWORDS : list text :=
  [lit "refactor"; lit "clean up"; lit "improve"; lit "fix"; lit "simplify";
   lit "messy"; lit "complex"; lit "debt"; lit "quality"].

Definition TECHNICAL_KEYWORDS : list text :=
  [lit "code smell"; lit "complexity"; lit "coupling"; lit "cohesion";
   lit "duplication"; lit "dry"; lit "pattern"].

(** *** The patterns written inline in the functions *)

(** [r'^---\s*\n(.*?)\n---\s*\n'], used with [re.DOTALL] *)
Definition FRONTMATTER_RE : Re.regex :=
  Re.Seq [Re.Bol; Re.Word "---"; Re.Star true Re.Space; Re.Lit newline;
          Re.Group (Re.Star false Re.Dot);
          Re.Lit newline; Re.Word "---"; Re.Star true Re.Space;
          Re.Lit newline].

(** [r'^name:\s*(.+)$'], used with [re.MULTILINE] *)
Definition NAME_LINE_RE : Re.regex :=
  Re.Seq [Re.Bol; Re.Word "name:"; Re.Star true Re.Space;
          Re.Group (Re.Plus true Re.Dot); Re.Eol].

(** The block form of a description, used with [re.MULTILINE]:
    [^description:\s*[>|]\s*\n] and then group 1, which is any number
    of repetitions of [\s+.+\n?]. *)
Definition DESC_BLOCK_RE : Re.regex :=
  Re.Seq [Re.Bol; Re.Word "description:"; Re.Star true Re.Space;
          Re.Class [(ch ">", ch ">"); (ch "|", ch "|")];
          Re.Star true Re.Space; Re.Lit newline;
          Re.Group (Re.Star true
                      (Re.Seq [Re.Plus true Re.Space; Re.Plus true Re.Dot;
                               Re.Opt (Re.Lit newline)]))].

(** [r'^description:\s*(.+)$'], used with [re.MULTILINE] *)
Definition DESC_INLINE_RE : Re.regex :=
  Re.Seq [Re.Bol; Re.Word "description:"; Re.Star true Re.Space;
          Re.Group (Re.Plus true Re.Dot); Re.Eol].

(** [r'auto.?invoc'], used with [re.IGNORECASE] *)
Definition AUTO_INVOC_RE : Re.regex :=
  Re.Seq [Re.Word "auto"; Re.Opt Re.Dot; Re.Word "invoc"].

Definition dotall : Re.flags := Re.Flags false false true.
Definition multiline : Re.flags := Re.Flags false true false.
Definition ignorecase : Re.flags := Re.Flags true false false.

(** The argument of the script's second [strip]: the double and the
    single quote character. *)
Definition quotes : text := [ascii_of_nat 34; ascii_of_nat 39].

(** *** parse_frontmatter *)

(** The [data] dict: it only ever receives the keys [name] and
    [description]; a key that is absent is [None]. *)
Record frontmatter := FrontMatter {
  fm_name : option text;
  fm_description : option text
}.

(** [data.get(key, '')] for the two keys. *)
Definition get_or_empty (v : option text) : text :=
  match v with Some t => t | None => [] end.

Definition NO_FRONTMATTER : text := lit "No YAML frontmatter found".

Definition extract_name (fm_text : text) : option text :=
  match Re.search multiline NAME_LINE_RE fm_text with
  | Some m => Some (Py.strip_chars quotes (Py.strip (Re.group m)))
  | None => None
  end.

Definition extract_description (fm_text : text) : option text :=
  match Re.search multiline DESC_BLOCK_RE fm_text with
  | Some m => Some (Py.join (lit " ") (Py.split (Py.strip (Re.group m))))
  | None =>
      match Re.search multiline DESC_INLINE_RE fm_text with
      | Some m => Some (Py.strip_chars quotes (Py.strip (Re.group m)))
      | None => None
      end
  end.

(** Returns [(data, body, error)]. *)
Definition parse_frontmatter (content : text)
  : option frontmatter * text * option text :=
  match Re.rmatch dotall FRONTMATTER_RE content with
  | None => (None, content, Some NO_FRONTMATTER)
  | Some m =>
      let fm_text := Re.group m in
      let body := Re.rest m in
      (Some (FrontMatter (extract_name fm_text)
                         (extract_description fm_text)),
       body, None)
  end.

(** *** Check results *)

(** The tuple [(name, passed, points, max_points, detail)]. *)
Record CheckResult := Check {
  label : text;
  passed : bool;
  pointsAwarded : nat;
  pointsMax : nat;
  detail : text
}.

(** [pts if ok else 0] *)
Definition award (ok : bool) (pts : nat) : nat := if ok then pts else 0.

(** Truth of a string: it is not empty. *)
Definition truthy (s : text) : bool :=
  match s with [] => false | _ :: _ => true end.

(** *** The target directory *)

(** The exception classes that reading the directory can meet. *)
Inductive exn :=
| PermissionError
| JSONDecodeError
| UnicodeDecodeError
| TypeError.

Inductive result (A : Type) :=
| Ok (a : A)
| Raise (e : exn).
Arguments Ok {A} a.
Arguments Raise {A} e.

Definition bind {A B : Type} (m : result A) (f : A -> result B) : result B :=
  match m with
  | Ok a => f a
  | Raise e => Raise e
  end.

Notation "x <- m ;; k" := (bind m (fun x => k))
  (at level 61, m at next level, right associativity).
Notation "' pat <- m ;; k" :=
  (bind m (fun x => match x with pat => k end))
  (at level 61, pat pattern, m at next level, right associativity).

(** [try: body except (json.JSONDecodeError, PermissionError): pass],
    where the variable the body assigns was [False] before. *)
Definition try_json (body : result bool) : result bool :=
  match body with
  | Raise JSONDecodeError => Ok false
  | Raise PermissionError => Ok false
  | other => other
  end.

(** A path: [NoFile] when [os.path.isfile] is false, otherwise what
    opening and reading (or [json.load]) gives. *)
Inductive file (A : Type) :=
| NoFile
| File (read : result A).
Arguments NoFile {A}.
Arguments File {A} read.

Definition isfile {A : Type} (f : file A) : bool :=
  match f with NoFile => false | File _ => true end.

(** What [json.load] returns. *)
#[warnings="-register-all"]
Inductive json :=
| JNull
| JBool (b : bool)
| JNumber (literal : text)
| JString (s : text)
| JArray (items : list json)
| JObject (members : list (text * json)).

Definition text_eqb (a b : text) : bool :=
  if list_eq_dec Ascii.ascii_dec a b then true else false.

(** [key in data] for a string [key]: a key of a dict, an element of a
    list, a substring of a string; any other value is not iterable. *)
Definition py_in (key : text) (data : json) : result bool :=
  match data with
  | JObject members => Ok (existsb (fun kv => text_eqb key (fst kv)) members)
  | JArray items =>
      Ok (existsb (fun x => match x with
                            | JString s => text_eqb key s
                            | _ => false
                            end) items)
  | JString s => Ok (Py.contains key s)
  | JNull | JBool _ | JNumber _ => Raise TypeError
  end.

(** The state of the target directory: [SKILL.md], the two JSON files,
    and for [references/] and [commands/] the file names of every
    directory that [os.walk] visits ([None] when [os.path.isdir] is
    false). *)
Record directory := Directory {
  skill_md : file text;
  references : option (list (list text));
  commands : option (list (list text));
  claude_skill_json : file json;
  package_json : file json
}.

(** *** validate_critical *)

(** The five critical checks; [skill_path] is the directory and
    [content] what [main] read from [SKILL.md] ([None] when it read
    nothing). *)
Definition validate_critical (skill_path : directory) (content : option text)
  : list CheckResult :=
  let exists_ := isfile (skill_md skill_path) in
  let c1 := Check (lit "SKILL.md exists") exists_ (award exists_ 3) 3 [] in
  match content with
  | None | Some [] =>
      [c1;
       Check (lit "Valid YAML frontmatter") false 0 3
             (lit "No content to parse");
       Check (lit "name field valid") false 0 3 [];
       Check (lit "description field valid") false 0 3 [];
       Check (lit "Body non-empty") false 0 3 []]
  | Some content =>
      let '(data, body, error) := parse_frontmatter content in
      let fm_valid := match data with Some _ => true | None => false end in
      let c2 := Check (lit "Valid YAML frontmatter") fm_valid
                      (award fm_valid 3) 3 (get_or_empty error) in
      let name := match data with
                  | Some d => get_or_empty (fm_name d)
                  | None => []
                  end in
      let name_valid :=
        truthy name
        && (match Re.rmatch Re.no_flags NAME_REGEX name with
            | Some _ => true
            | None => false
            end)
        && (length name <=? MAX_NAME_LEN) in
      let detail := if name_valid then lit ": " ++ name else [] in
      let c3 := Check (lit "name field valid") name_valid
                      (award name_valid 3) 3 detail in
      let desc := match data with
                  | Some d => get_or_empty (fm_description d)
                  | None => []
                  end in
      let desc_valid := truthy desc && (length desc <=? MAX_DESC_LEN) in
      let c4 := Check (lit "description field valid") desc_valid
                      (award desc_valid 3) 3 [] in
      let body_text := match data with Some _ => body | None => content end in
      let body_valid := truthy body_text && truthy (Py.strip body_text) in
      let c5 := Check (lit "Body non-empty") body_valid
                      (award body_valid 3) 3 [] in
      [c1; c2; c3; c4; c5]
  end.

(** *** validate_structure *)

(** The [.md] files under a directory: the sum over [os.walk]. *)
Definition count_md (dir : option (list (list text))) : nat :=
  match dir with
  | None => 0
  | Some walk =>
      fold_left (fun acc files =>
                   acc + length (filter (Py.endswith (lit ".md")) files))
                walk 0
  end.

Definition files_detail (ok : bool) (n : nat) : text :=
  if ok then lit " (" ++ Py.str_of_nat n ++ lit " files)" else [].

(** The body of the [try] for one JSON file, given the test on the
    loaded value. *)
Definition json_check (f : file json) (test : json -> result bool)
  : result bool :=
  try_json (match f with
            | NoFile => Ok false
            | File read => data <- read ;; test data
            end).

(** ['name' in data and 'version' in data] *)
Definition name_and_version (data : json) : result bool :=
  has_name <- py_in (lit "name") data ;;
  if has_name then py_in (lit "version") data else Ok false.

Definition validate_structure (skill_path : directory)
  : result (list CheckResult) :=
  let md_count := count_md (references skill_path) in
  let refs_valid := 0 <? md_count in
  let c1 := Check (lit "references/ exists" ++ files_detail refs_valid md_count)
                  refs_valid (award refs_valid 2) 2 [] in
  let cmd_count := count_md (commands skill_path) in
  let cmds_valid := 0 <? cmd_count in
  let c2 := Check (lit "commands/ exists" ++ files_detail cmds_valid cmd_count)
                  cmds_valid (award cmds_valid 2) 2 [] in
  json_valid <- json_check (claude_skill_json skill_path)
                           (py_in (lit "name")) ;;
  let c3 := Check (lit ".claude-skill.json valid") json_valid
                  (award json_valid 2) 2 [] in
  pkg_valid <- json_check (package_json skill_path) name_and_version ;;
  let c4 := Check (lit "package.json valid") pkg_valid
                  (award pkg_valid 1) 1 [] in
  Ok [c1; c2; c3; c4].

(** *** validate_quality *)

(** [any(kw in desc_lower for kw in keywords)] *)
Definition any_keyword (keywords : list text) (desc_lower : text) : bool :=
  existsb (fun kw => Py.contains kw desc_lower) keywords.

(** [len(body or '') // 4] *)
Definition token_count (body : text) : nat := length body / 4.

(** The four quality checks.  Both arguments are strings whenever
    [main] calls this, so [body or ''] is [body] and [description or '']
    is [description]. *)
Definition validate_quality (body description : text) : list CheckResult :=
  let auto_present :=
    truthy body
    && (match Re.search ignorecase AUTO_INVOC_RE body with
        | Some _ => true
        | None => false
        end) in
  let c1 := Check (lit "Auto-invocation section present") auto_present
                  (award auto_present 2) 2 [] in
  let desc_lower := Py.lower description in
  let has_natural := any_keyword NATURAL_KEYWORDS desc_lower in
  let has_technical := any_keyword TECHNICAL_KEYWORDS desc_lower in
  let dual := has_natural && has_technical in
  let c2 := Check (lit "Dual keywords in description") dual
                  (award dual 2) 2 [] in
  let tokens := token_count body in
  let token_ok := tokens <? MAX_TOKENS in
  let detail3 := lit ": " ++ Py.str_of_nat_commas tokens ++ lit " ("
                 ++ (if token_ok then lit "<" else lit ">") ++ lit " "
                 ++ Py.str_of_nat_commas MAX_TOKENS ++ lit ")" in
  let c3 := Check (lit "Token count" ++ detail3) token_ok
                  (award token_ok 2) 2 [] in
  let desc_len := length description in
  let desc_ok := MIN_DESC_LEN <? desc_len in
  let detail4 := lit ": " ++ Py.str_of_nat desc_len ++ lit " chars ("
                 ++ (if desc_ok then lit ">" else lit "<=") ++ lit " "
                 ++ Py.str_of_nat MIN_DESC_LEN ++ lit ")" in
  let c4 := Check (lit "Description length" ++ detail4) desc_ok
                  (award desc_ok 1) 1 [] in
  [c1; c2; c3; c4].

(** *** print_results *)

(** What the report shows: the three tiers cut out of [all_checks] by
    position, the two totals and the verdict.  The layout of the lines
    and the rounded percentage are not part of this model. *)
Record report := Report {
  tiers : list (text * list CheckResult);
  shown_score : nat;
  shown_max : nat;
  verdict : bool
}.

Definition print_results (all_checks : list CheckResult) (score max_score : nat)
  : report :=
  Report [(lit "CRITICAL", firstn 5 all_checks);
          (lit "STRUCTURE", firstn 4 (skipn 5 all_checks));
          (lit "QUALITY", skipn 9 all_checks)]
         score max_score (PASS_THRESHOLD <=? score).

(** *** main *)

(** Reading [SKILL.md]: the content, if any, and whether the warning
    was printed. *)
Definition read_skill (f : file text) : result (option text * bool) :=
  match f with
  | NoFile => Ok (None, false)
  | File (Ok content) => Ok (Some content, false)
  | File (Raise PermissionError) => Ok (None, true)
  | File (Raise e) => Raise e
  end.

(** A run that reaches [sys.exit]. *)
Record completed := Completed {
  warning : bool;
  all_checks : list CheckResult;
  score : nat;
  max_score : nat;
  printed : report;
  exit_code : nat
}.

Definition sum_of (f : CheckResult -> nat) (checks : list CheckResult) : nat :=
  fold_left (fun acc c => acc + f c) checks 0.

(** The body and the description that [main] hands to the quality
    checks: both empty unless there is content, and the description
    empty unless the parsed dict is non-empty. *)
Definition quality_inputs (content : option text) : text * text :=
  match content with
  | None | Some [] => ([], [])
  | Some content =>
      let '(data, body, _) := parse_frontmatter content in
      match data with
      | Some (FrontMatter None None) | None => (body, [])
      | Some d => (body, get_or_empty (fm_description d))
      end
  end.

Definition main (skill_path : directory) : result completed :=
  '(content, warned) <- read_skill (skill_md skill_path) ;;
  let '(body, description) := quality_inputs content in
  let critical := validate_critical skill_path content in
  structure <- validate_structure skill_path ;;
  let quality := validate_quality body description in
  let all_checks := critical ++ structure ++ quality in
  let score := sum_of pointsAwarded all_checks in
  let max_score := sum_of pointsMax all_checks in
  Ok (Completed warned all_checks score max_score
                (print_results all_checks score max_score)
                (if PASS_THRESHOLD <=? score then 0 else 1)).

(** The exit status of the process: an exception that nothing catches
    ends the interpreter with status 1, and no report is printed. *)
Definition exit_status (r : result completed) : nat :=
  match r with
  | Ok c => exit_code c
  | Raise _ => 1
  end.

(** *** Reading the results *)

Definition no_check : CheckResult := Check [] false 0 0 [].

(** The check at a position of a list of results, counted from 0. *)
Definition check_at (i : nat) (checks : list CheckResult) : CheckResult :=
  nth i checks no_check.

(** [p] occurs in [s]. *)
Definition occurs (p s : text) : Prop :=
  exists before after, s = before ++ p ++ after.

(** *** Notions used to state the properties *)

(** The patterns that consume exactly one character. *)
Definition single (fl : Re.flags) (r : Re.regex) (p : ascii -> bool) : Prop :=
  forall s, Re.run fl r s = Re.step p s.

(** The literal characters [w] match at the head of [rs]. *)
Fixpoint lits_match (fl : Re.flags) (w rs : text) : bool :=
  match w, rs with
  | [], _ => true
  | p :: w', c :: rs' => Re.lit_matches fl p c && lits_match fl w' rs'
  | _ :: _, [] => false
  end.

(** No character of [s] is a newline. *)
Definition no_newline (s : text) : bool :=
  forallb (fun c => negb (Ascii.eqb c newline)) s.

(** What [auto.?invoc] matches when case is ignored: the letters of
    "auto" in either case, at most one character that is not a
    newline, the letters of "invoc" in either case. *)
Definition auto_invoc_match (m : text) : Prop :=
  exists a mid i,
    m = a ++ mid ++ i
    /\ Py.lower a = lit "auto"
    /\ Py.lower i = lit "invoc"
    /\ (mid = [] \/ exists c, mid = [c] /\ c <> newline).

(** The same, decided at the head of [b]. *)
Definition auto_invoc_at (b : text) : bool :=
  lits_match ignorecase (lit "auto") b
  && ((match skipn 4 b with
       | c :: b' => Re.dot_matches ignorecase c
                    && lits_match ignorecase (lit "invoc") b'
       | [] => false
       end)
      || lits_match ignorecase (lit "invoc") (skipn 4 b)).

(** The characters a name may have: a lowercase letter, a digit or a
    hyphen. *)
Definition name_char (c : ascii) : bool :=
  let n := nat_of_ascii c in
  ((97 <=? n) && (n <=? 122)) || ((48 <=? n) && (n <=? 57)) || (n =? 45).

(** An uppercase letter. *)
Definition is_upper (c : ascii) : bool :=
  let n := nat_of_ascii c in (65 <=? n) && (n <=? 90).

(** The name that [parse_frontmatter] finds in a document, if any. *)
Definition parsed_name (content : text) : option text :=
  match fst (fst (parse_frontmatter content)) with
  | Some data => fm_name data
  | None => None
  end.

(** Lines put together with a newline between them. *)
Definition join_lines (lines : list text) : text := Py.join [newline] lines.

(** A line that is free of newlines and does not begin with [name:]. *)
Definition other_line (l : text) : Prop :=
  no_newline l = true /\ Py.startswith (lit "name:") l = false.

(** Some character of [s] is not white space. *)
Definition has_visible (s : text) : bool :=
  existsb (fun c => negb (Py.isspace c)) s.

(** The double quote and the single quote. *)
Definition dquote : ascii := ascii_of_nat 34.
Definition squote : ascii := ascii_of_nat 39.

(** Quote removal as the spec words it: the first and the last
    character are dropped when they are the same quote character, and
    nothing is dropped otherwise. *)
Definition spec_unquote (s : text) : text :=
  match s with
  | q :: s' =>
      match rev s' with
      | q' :: middle_rev =>
          if (Ascii.eqb q dquote || Ascii.eqb q squote) && Ascii.eqb q q'
          then rev middle_rev else s
      | [] => s
      end
  | [] => []
  end.

(** Membership in the argument of the second [strip]. *)
Definition is_quote (c : ascii) : bool := existsb (Ascii.eqb c) quotes.

(** The first and the last character of [s], if any, fail [p]. *)
Definition ends_clear (p : ascii -> bool) (s : text) : Prop :=
  match s with [] => True | x :: _ => p x = false end
  /\ match rev s with [] => True | x :: _ => p x = false end.

(** A loaded JSON value on which [key in data] is defined: an object,
    an array or a string. *)
Definition is_container (data : json) : bool :=
  match data with
  | JObject _ | JArray _ | JString _ => true
  | JNull | JBool _ | JNumber _ => false
  end.

(** Reading [SKILL.md] raises nothing that [main] does not catch. *)
Definition skill_md_caught (f : file text) : Prop :=
  match f with
  | File (Raise e) => e = PermissionError
  | _ => True
  end.

(** A JSON file raises nothing that [validate_structure] does not
    catch. *)
Definition json_caught (f : file json) : Prop :=
  match f with
  | NoFile => True
  | File (Raise e) => e = JSONDecodeError \/ e = PermissionError
  | File (Ok data) => is_container data = true
  end.

Definition all_caught (d : directory) : Prop :=
  skill_md_caught (skill_md d)
  /\ json_caught (claude_skill_json d)
  /\ json_caught (package_json d).

(** A directory whose [package.json] holds the JSON value [null] and
    nothing else. *)
Definition null_package_directory : directory :=
  Directory NoFile None None NoFile (File (Ok JNull)).

(** A directory whose [.claude-skill.json] holds the JSON number 42. *)
Definition number_skill_json_directory : directory :=
  Directory NoFile None None (File (Ok (JNumber (lit "42")))) NoFile.

(** A directory whose [SKILL.md] cannot be decoded as text. *)
Definition undecodable_skill_md_directory : directory :=
  Directory (File (Raise UnicodeDecodeError)) None None NoFile NoFile.

(** A complete skill: a manifest with a valid name, a long description
    with keywords of both kinds and a body that mentions
    auto-invocation, one [.md] file under each of the two directories,
    and the two JSON files with their keys. *)
Definition complete_manifest : text :=
  lit "---" ++ newline
  :: lit "name: my-skill" ++ newline
  :: lit "description: Refactor messy code and remove duplication in a codebase."
  ++ newline
  :: lit "---" ++ newline
  :: lit "# Auto-Invocation".

Definition complete_skill_directory : directory :=
  Directory (File (Ok complete_manifest))
            (Some [[lit "guide.md"]])
            (Some [[lit "notes.txt"]; [lit "run.md"]])
            (File (Ok (JObject [(lit "name", JString (lit "my-skill"))])))
            (File (Ok (JObject [(lit "name", JString (lit "my-skill"));
                                (lit "version", JString (lit "1.0.0"))]))).


(** *** Notions used to state the further properties *)

(** A row gives all of its points when it passed and none otherwise. *)
Definition all_or_nothing (c : CheckResult) : Prop :=
  pointsAwarded c = if passed c then pointsMax c else 0.

(** The pattern [^key\s*(.+)$] for a key such as [name:]. *)
Definition key_line_re (key : string) : Re.regex :=
  Re.Seq [Re.Bol; Re.Word key; Re.Star true Re.Space;
          Re.Group (Re.Plus true Re.Dot); Re.Eol].

(** A pattern that, under MULTILINE, matches nowhere but at the start
    of a line. *)
Definition needs_bol (r : Re.regex) : Prop :=
  forall c sn rs g,
    c <> newline -> Re.run multiline r (Re.Cursor (c :: sn) rs g) = [].

(** The pattern [r] does not match at the start of the line [l],
    whatever precedes the line and whether the text ends with it or
    goes on with a newline. *)
Definition no_match_at_line (r : Re.regex) (l : text) : Prop :=
  forall sn more,
    match more with [] => True | x :: _ => x = newline end ->
    Re.run multiline r (Re.Cursor sn (l ++ more) None) = [].

(** A line that is free of newlines and does not begin with [key]. *)
Definition line_without (key : string) (l : text) : Prop :=
  no_newline l = true /\ Py.startswith (lit key) l = false.

(** A word of [split]: not empty and free of white space. *)
Definition is_word (w : text) : Prop :=
  w <> [] /\ forallb (fun c => negb (Py.isspace c)) w = true.

(** The description that [parse_frontmatter] finds in a document. *)
Definition parsed_description (content : text) : option text :=
  match fst (fst (parse_frontmatter content)) with
  | Some data => fm_description data
  | None => None
  end.

(** The file names that [os.walk] meets, one directory after the
    other. *)
Definition walked_files (dir : option (list (list text))) : list text :=
  match dir with
  | None => []
  | Some walk => concat walk
  end.



(** * Properties *)

(** ** Text *)

Lemma startswith_spec (p s : text) :
  Py.startswith p s = true <-> exists after, s = p ++ after.
Proof.
  revert s; induction p as [|a p IH]; intros s; simpl.
  - split; [intros _; now exists s | reflexivity].
  - destruct s as [|b s].
    + split; [discriminate | intros [x H]; discriminate].
    + rewrite andb_true_iff, Ascii.eqb_eq, IH. split.
      * intros [-> [x ->]]. now exists x.
      * intros [x H]. injection H as -> ->. split; [reflexivity | now exists x].
Qed.

Lemma contains_spec (p s : text) :
  Py.contains p s = true <-> occurs p s.
Proof.
  induction s as [|c s IH].
  - simpl. rewrite orb_false_r, startswith_spec. split.
    + intros [x H]. exists [], x. exact H.
    + intros [a [b H]]. destruct a; [now exists b | discriminate].
  - cbn [Py.contains]. rewrite orb_true_iff, IH, startswith_spec. split.
    + intros [[x H] | [a [b H]]].
      * exists [], x. exact H.
      * exists (c :: a), b. simpl. now rewrite H.
    + intros [a [b H]]. destruct a as [|c' a].
      * left. now exists b.
      * right. injection H as _ H. now exists a, b.
Qed.

Lemma any_keyword_spec (keywords : list text) (d : text) :
  any_keyword keywords d = true <->
  exists kw, In kw keywords /\ occurs kw d.
Proof.
  unfold any_keyword. rewrite existsb_exists.
  split; intros [kw [Hin H]]; exists kw; split; auto;
    now apply contains_spec.
Qed.

(** ** The quality checks *)

Lemma quality_token_check (body description : text) :
  passed (check_at 2 (validate_quality body description))
  = (length body / 4 <? MAX_TOKENS)
  /\ pointsAwarded (check_at 2 (validate_quality body description))
    = award (length body / 4 <? MAX_TOKENS) 2.
Proof. split; reflexivity. Qed.

Lemma quality_dual_check (body description : text) :
  let dual := any_keyword NATURAL_KEYWORDS (Py.lower description)
              && any_keyword TECHNICAL_KEYWORDS (Py.lower description) in
  passed (check_at 1 (validate_quality body description)) = dual
  /\ pointsAwarded (check_at 1 (validate_quality body description))
    = award dual 2.
Proof. split; reflexivity. Qed.

(** C7.  Quality check 3 passes exactly when the length of the body,
    divided by 4 and rounded down, is below 5000; a body of 20000
    characters is counted as 5000 and fails, one of 19999 characters
    is counted as 4999 and passes. *)
Theorem token_count_threshold :
  (forall body description,
      passed (check_at 2 (validate_quality body description)) = true
      <-> length body / 4 < 5000)
  /\ (forall body description,
        length body = 20000 ->
        token_count body = 5000
        /\ passed (check_at 2 (validate_quality body description)) = false
        /\ pointsAwarded (check_at 2 (validate_quality body description)) = 0)
  /\ (forall body description,
        length body = 19999 ->
        token_count body = 4999
        /\ passed (check_at 2 (validate_quality body description)) = true
        /\ pointsAwarded (check_at 2 (validate_quality body description)) = 2).
Proof.
  split; [|split]; intros body description.
  - destruct (quality_token_check body description) as [-> _].
    apply Nat.ltb_lt.
  - intros H.
    destruct (quality_token_check body description) as [-> ->].
    unfold token_count. rewrite H. repeat split; reflexivity.
  - intros H.
    destruct (quality_token_check body description) as [-> ->].
    unfold token_count. rewrite H. repeat split; vm_compute; reflexivity.
Qed.

Lemma token_count_threshold_witness :
  let body := repeat (ch "x") 20000 in
  length body = 20000
  /\ token_count body = 5000
  /\ passed (check_at 2 (validate_quality body [])) = false
  /\ pointsAwarded (check_at 2 (validate_quality body [])) = 0.
Proof.
  intro body.
  assert (H : length body = 20000) by apply repeat_length.
  split; [exact H |].
  exact (proj1 (proj2 token_count_threshold) body [] H).
Defined.

(** C8.  Quality check 2 gives its 2 points exactly when the lowercased
    description contains a natural-language keyword and a technical
    keyword, and 0 otherwise; the description "refactor" gets 0 and
    "refactor coupling" gets 2. *)
Theorem dual_keywords_both_sets :
  (forall body description,
      let c := check_at 1 (validate_quality body description) in
      (pointsAwarded c = 2 <->
       (exists kw, In kw NATURAL_KEYWORDS /\ occurs kw (Py.lower description))
       /\ (exists kw, In kw TECHNICAL_KEYWORDS
                      /\ occurs kw (Py.lower description)))
      /\ (pointsAwarded c = 2 \/ pointsAwarded c = 0)
      /\ (passed c = true <-> pointsAwarded c = 2))
  /\ (forall body,
        pointsAwarded (check_at 1 (validate_quality body (lit "refactor"))) = 0)
  /\ (forall body,
        pointsAwarded
          (check_at 1 (validate_quality body (lit "refactor coupling"))) = 2).
Proof.
  split; [|split].
  - intros body description c.
    destruct (quality_dual_check body description) as [Hp Ha].
    fold c in Hp, Ha. cbv zeta in Hp, Ha. rewrite Hp, Ha.
    rewrite <- !any_keyword_spec, <- andb_true_iff.
    destruct (any_keyword NATURAL_KEYWORDS (Py.lower description)
              && any_keyword TECHNICAL_KEYWORDS (Py.lower description));
      simpl; repeat split; auto; discriminate.
  - intros body.
    destruct (quality_dual_check body (lit "refactor")) as [_ ->].
    reflexivity.
  - intros body.
    destruct (quality_dual_check body (lit "refactor coupling")) as [_ ->].
    reflexivity.
Qed.

(** C10.  One word can serve both keyword sets: in the description
    "complexity" the natural keyword "complex" and the technical keyword
    "complexity" both occur, no other natural keyword does, and the
    check gives its 2 points. *)
Theorem complexity_alone_scores :
  let d := Py.lower (lit "complexity") in
  Py.contains (lit "complex") d = true
  /\ Py.contains (lit "complexity") d = true
  /\ filter (fun kw => Py.contains kw d) NATURAL_KEYWORDS = [lit "complex"]
  /\ In (lit "complex") NATURAL_KEYWORDS
  /\ In (lit "complexity") TECHNICAL_KEYWORDS
  /\ forall body,
       let c := check_at 1 (validate_quality body (lit "complexity")) in
       passed c = true /\ pointsAwarded c = 2.
Proof.
  repeat split; try reflexivity; simpl; tauto.
Qed.

(** ** The matcher *)

Lemma star_loop_fuel (greedy : bool) (body : Re.cursor -> list Re.cursor)
      (n m : nat) (s : Re.cursor) :
  length (Re.rest s) < n -> length (Re.rest s) < m ->
  Re.star_loop greedy body n s = Re.star_loop greedy body m s.
Proof.
  revert m s; induction n as [|n IH]; intros m s Hn Hm; [lia|].
  destruct m as [|m]; [lia|]. simpl.
  assert (E : flat_map (fun s' => if length (Re.rest s') <? length (Re.rest s)
                                  then Re.star_loop greedy body n s' else [])
                       (body s)
              = flat_map (fun s' => if length (Re.rest s') <? length (Re.rest s)
                                    then Re.star_loop greedy body m s' else [])
                         (body s)).
  { apply flat_map_ext. intros s'.
    destruct (length (Re.rest s') <? length (Re.rest s)) eqn:E; [|reflexivity].
    apply Nat.ltb_lt in E. apply IH; lia. }
  now rewrite E.
Qed.

(** A repeat is one more round followed by the repeat, or nothing. *)
Lemma run_star (fl : Re.flags) (greedy : bool) (r : Re.regex) (s : Re.cursor) :
  Re.run fl (Re.Star greedy r) s
  = let more :=
      flat_map (fun s' => if length (Re.rest s') <? length (Re.rest s)
                          then Re.run fl (Re.Star greedy r) s' else [])
               (Re.run fl r s) in
    if greedy then more ++ [s] else s :: more.
Proof.
  cbn [Re.run Re.star_loop]. cbv zeta.
  assert (E : flat_map (fun s' => if length (Re.rest s') <? length (Re.rest s)
                                  then Re.star_loop greedy (Re.run fl r)
                                                    (length (Re.rest s)) s'
                                  else [])
                       (Re.run fl r s)
              = flat_map (fun s' => if length (Re.rest s') <? length (Re.rest s)
                                    then Re.star_loop greedy (Re.run fl r)
                                           (S (length (Re.rest s'))) s'
                                    else [])
                         (Re.run fl r s)).
  { apply flat_map_ext. intros s'.
    destruct (length (Re.rest s') <? length (Re.rest s)) eqn:E; [|reflexivity].
    apply Nat.ltb_lt in E. apply star_loop_fuel; lia. }
  now rewrite E.
Qed.

Lemma run_cat (fl : Re.flags) (r1 r2 : Re.regex) (s : Re.cursor) :
  Re.run fl (Re.Cat r1 r2) s = flat_map (Re.run fl r2) (Re.run fl r1 s).
Proof. reflexivity. Qed.

Lemma single_lit fl c : single fl (Re.Lit c) (Re.lit_matches fl c).
Proof. intro; reflexivity. Qed.

Lemma single_dot fl : single fl Re.Dot (Re.dot_matches fl).
Proof. intro; reflexivity. Qed.

Lemma single_space fl : single fl Re.Space Py.isspace.
Proof. intro; reflexivity. Qed.

Lemma single_class fl ranges :
  single fl (Re.Class ranges) (Re.in_class ranges).
Proof. intro; reflexivity. Qed.

Section SingleRepeat.

Variable fl : Re.flags.
Variable r : Re.regex.
Variable p : ascii -> bool.
Hypothesis r_single : single fl r p.

Lemma run_star_nil greedy sn g :
  Re.run fl (Re.Star greedy r) (Re.Cursor sn [] g) = [Re.Cursor sn [] g].
Proof.
  rewrite run_star, r_single. destruct greedy; reflexivity.
Qed.

Lemma run_star_cons greedy sn c rs g :
  Re.run fl (Re.Star greedy r) (Re.Cursor sn (c :: rs) g)
  = if p c
    then if greedy
         then Re.run fl (Re.Star greedy r) (Re.Cursor (c :: sn) rs g)
              ++ [Re.Cursor sn (c :: rs) g]
         else Re.Cursor sn (c :: rs) g
              :: Re.run fl (Re.Star greedy r) (Re.Cursor (c :: sn) rs g)
    else [Re.Cursor sn (c :: rs) g].
Proof.
  rewrite run_star, r_single. unfold Re.step. cbn [Re.rest Re.seen Re.group1].
  destruct (p c); cbn [flat_map Re.rest]; [|destruct greedy; reflexivity].
  assert (E : (length rs <? length (c :: rs)) = true)
    by (apply Nat.ltb_lt; simpl; lia).
  rewrite E, app_nil_r. reflexivity.
Qed.

(** Every match of the repeat has passed over characters that all
    satisfy [p], and left the group alone. *)
Lemma run_star_sound greedy rs : forall sn g s',
  In s' (Re.run fl (Re.Star greedy r) (Re.Cursor sn rs g)) ->
  exists w, forallb p w = true /\ rs = w ++ Re.rest s'
            /\ Re.seen s' = rev w ++ sn /\ Re.group1 s' = g.
Proof.
  induction rs as [|c rs IH]; intros sn g s'.
  - rewrite run_star_nil. intros [<- | []]. now exists [].
  - rewrite run_star_cons. destruct (p c) eqn:Hc.
    + assert (Hrec : In s' (Re.run fl (Re.Star greedy r)
                                   (Re.Cursor (c :: sn) rs g)) ->
                     exists w, forallb p w = true
                               /\ c :: rs = w ++ Re.rest s'
                               /\ Re.seen s' = rev w ++ sn
                               /\ Re.group1 s' = g).
      { intros H. destruct (IH _ _ _ H) as [w [Hw [E1 [E2 E3]]]].
        exists (c :: w). simpl. rewrite Hc, Hw, E1 at 1.
        rewrite E2, <- app_assoc. auto. }
      destruct greedy.
      * rewrite in_app_iff. intros [H | [<- | []]]; [auto | now exists []].
      * intros [<- | H]; [now exists [] | auto].
    + intros [<- | []]. now exists [].
Qed.

(** Every run of characters that satisfy [p] is one of the matches. *)
Lemma run_star_complete greedy w : forall sn rs g,
  forallb p w = true ->
  In (Re.Cursor (rev w ++ sn) rs g)
     (Re.run fl (Re.Star greedy r) (Re.Cursor sn (w ++ rs) g)).
Proof.
  induction w as [|c w IH]; intros sn rs g Hw.
  - cbn [app rev]. destruct rs as [|c rs].
    + rewrite run_star_nil. now left.
    + rewrite run_star_cons.
      destruct (p c), greedy; try (now left).
      rewrite in_app_iff. right. now left.
  - simpl in Hw. apply andb_true_iff in Hw as [Hc Hw].
    cbn [app rev]. rewrite run_star_cons, Hc, <- app_assoc.
    specialize (IH (c :: sn) rs g Hw).
    destruct greedy; [rewrite in_app_iff; now left | now right].
Qed.

(** The preferred greedy match takes every character it can. *)
Lemma run_star_greedy_hd w : forall sn rs g,
  forallb p w = true ->
  match rs with [] => True | c :: _ => p c = false end ->
  exists others,
    Re.run fl (Re.Star true r) (Re.Cursor sn (w ++ rs) g)
    = Re.Cursor (rev w ++ sn) rs g :: others.
Proof.
  induction w as [|c w IH]; intros sn rs g Hw Hrs.
  - cbn [app rev]. destruct rs as [|c rs].
    + rewrite run_star_nil. now exists [].
    + rewrite run_star_cons, Hrs. now exists [].
  - simpl in Hw. apply andb_true_iff in Hw as [Hc Hw].
    cbn [app rev]. rewrite run_star_cons, Hc, <- app_assoc.
    destruct (IH (c :: sn) rs g Hw Hrs) as [others ->].
    cbn [app]. eauto.
Qed.

End SingleRepeat.

Lemma run_word (fl : Re.flags) (w : text) : forall sn rs g,
  Re.run fl (Re.Seq (map Re.Lit w)) (Re.Cursor sn rs g)
  = if lits_match fl w rs
    then [Re.Cursor (rev (firstn (length w) rs) ++ sn)
                    (skipn (length w) rs) g]
    else [].
Proof.
  induction w as [|p w IH]; intros sn rs g; [reflexivity|].
  cbn [map Re.Seq lits_match]. rewrite run_cat.
  cbn [Re.run]. unfold Re.step. cbn [Re.rest Re.seen Re.group1].
  destruct rs as [|c rs]; [reflexivity|].
  destruct (Re.lit_matches fl p c); [|reflexivity].
  cbn [flat_map]. rewrite app_nil_r, IH. cbn [andb].
  destruct (lits_match fl w rs); [|reflexivity].
  cbn [length firstn skipn rev]. now rewrite <- app_assoc.
Qed.

Lemma lits_match_exact (fl : Re.flags) (w rs : text) :
  Re.IGNORECASE fl = false -> lits_match fl w rs = Py.startswith w rs.
Proof.
  intros Hfl. revert rs; induction w as [|p w IH]; intros rs; [reflexivity|].
  destruct rs as [|c rs]; [reflexivity|].
  simpl. unfold Re.lit_matches. rewrite Hfl, IH.
  f_equal. destruct (Ascii.eqb_spec c p), (Ascii.eqb_spec p c); congruence.
Qed.

(** [re.search] finds something exactly when the pattern matches at
    some position. *)
Lemma scan_finds (fl : Re.flags) (r : Re.regex) (rs : text) : forall sn,
  Re.scan fl r sn rs <> None <->
  exists a b, rs = a ++ b /\ Re.run fl r (Re.Cursor (rev a ++ sn) b None) <> [].
Proof.
  induction rs as [|c rs IH]; intros sn; cbn [Re.scan].
  - destruct (Re.run fl r (Re.Cursor sn [] None)) eqn:E.
    + split; [congruence|]. intros [a [b [H1 H2]]].
      symmetry in H1. apply app_eq_nil in H1 as [-> ->].
      cbn [rev app] in H2. congruence.
    + split; [|congruence]. intros _. exists [], []. split; [reflexivity|].
      cbn [rev app]. congruence.
  - destruct (Re.run fl r (Re.Cursor sn (c :: rs) None)) eqn:E.
    + rewrite IH. split.
      * intros [a [b [H1 H2]]]. exists (c :: a), b. split.
        -- simpl. now rewrite H1.
        -- cbn [rev]. now rewrite <- app_assoc.
      * intros [a [b [H1 H2]]]. destruct a as [|c' a].
        -- cbn [rev app] in *. subst b. congruence.
        -- injection H1 as <- ->. exists a, b. split; [reflexivity|].
           cbn [rev] in H2. now rewrite <- app_assoc in H2.
    + split; [|congruence]. intros _. exists [], (c :: rs).
      split; [reflexivity|]. cbn [rev app]. congruence.
Qed.

(** What [re.search] returns is a match of the pattern at some
    position. *)
Lemma scan_result (fl : Re.flags) (r : Re.regex) (rs : text) : forall sn m,
  Re.scan fl r sn rs = Some m ->
  exists a b, rs = a ++ b
              /\ In m (Re.run fl r (Re.Cursor (rev a ++ sn) b None)).
Proof.
  induction rs as [|c rs IH]; intros sn m; cbn [Re.scan].
  - destruct (Re.run fl r (Re.Cursor sn [] None)) eqn:E; [discriminate|].
    intros [= ->]. exists [], []. split; [reflexivity|].
    cbn [rev app]. rewrite E. now left.
  - destruct (Re.run fl r (Re.Cursor sn (c :: rs) None)) eqn:E.
    + intros H. destruct (IH _ _ H) as [a [b [H1 H2]]].
      exists (c :: a), b. split; [simpl; now rewrite H1|].
      cbn [rev]. now rewrite <- app_assoc.
    + intros [= ->]. exists [], (c :: rs). split; [reflexivity|].
      cbn [rev app]. rewrite E. now left.
Qed.

Lemma run_bol_cat (fl : Re.flags) (k : Re.regex) (s : Re.cursor) :
  Re.run fl (Re.Cat Re.Bol k) s = if Re.at_bol fl s then Re.run fl k s else [].
Proof.
  rewrite run_cat. change (Re.run fl Re.Bol s)
    with (if Re.at_bol fl s then [s] else []).
  destruct (Re.at_bol fl s); [|reflexivity].
  cbn [flat_map]. apply app_nil_r.
Qed.

Lemma run_word_cat (fl : Re.flags) (w : string) (k : Re.regex) sn rs g :
  Re.run fl (Re.Cat (Re.Word w) k) (Re.Cursor sn rs g)
  = if lits_match fl (lit w) rs
    then Re.run fl k (Re.Cursor (rev (firstn (length (lit w)) rs) ++ sn)
                                (skipn (length (lit w)) rs) g)
    else [].
Proof.
  rewrite run_cat. unfold Re.Word. rewrite run_word.
  destruct (lits_match fl (lit w) rs); [|reflexivity].
  cbn [flat_map]. apply app_nil_r.
Qed.

Lemma run_single_cat (fl : Re.flags) (r k : Re.regex) (p : ascii -> bool)
      sn rs g :
  single fl r p ->
  Re.run fl (Re.Cat r k) (Re.Cursor sn rs g)
  = match rs with
    | c :: rs' => if p c then Re.run fl k (Re.Cursor (c :: sn) rs' g) else []
    | [] => []
    end.
Proof.
  intros H. rewrite run_cat, H. unfold Re.step. cbn [Re.rest Re.seen Re.group1].
  destruct rs as [|c rs]; [reflexivity|].
  destruct (p c); [|reflexivity]. cbn [flat_map]. apply app_nil_r.
Qed.

Lemma run_eol_eps (fl : Re.flags) (s : Re.cursor) :
  Re.run fl (Re.Cat Re.Eol Re.Eps) s = if Re.at_eol fl s then [s] else [].
Proof.
  rewrite run_cat. change (Re.run fl Re.Eol s)
    with (if Re.at_eol fl s then [s] else []).
  destruct (Re.at_eol fl s); reflexivity.
Qed.

(** ** parse_frontmatter *)

Lemma frontmatter_needs_dashes (content : text) :
  Py.startswith (lit "---") content = false ->
  Re.rmatch dotall FRONTMATTER_RE content = None.
Proof.
  intros H. unfold Re.rmatch, FRONTMATTER_RE, Re.start.
  cbn [Re.Seq]. rewrite run_bol_cat. cbn [Re.at_bol Re.seen].
  rewrite run_word_cat, lits_match_exact, H by reflexivity.
  reflexivity.
Qed.

(** A text that does not begin with three hyphens has no front
    matter: it is handed back whole. *)
Lemma no_dashes_no_front_matter (body : text) :
  Py.startswith (lit "---") body = false ->
  parse_frontmatter body = (None, body, Some NO_FRONTMATTER).
Proof.
  intros H. unfold parse_frontmatter.
  now rewrite (frontmatter_needs_dashes body H).
Qed.


(** ** Quality check 1 *)

Lemma lits_match_ci (w : text) : forall rs,
  lits_match ignorecase w rs = true <->
  exists x after, rs = x ++ after /\ Py.lower x = Py.lower w.
Proof.
  induction w as [|p w IH]; intros rs.
  - split; [intros _; now exists [], rs | reflexivity].
  - destruct rs as [|c rs]; cbn [lits_match].
    + split; [discriminate|]. intros [x [after [H1 H2]]].
      destruct x; discriminate.
    + rewrite andb_true_iff, IH. unfold Re.lit_matches. cbn [Re.IGNORECASE ignorecase].
      rewrite Ascii.eqb_eq. split.
      * intros [Hc [x [after [-> Hx]]]]. exists (c :: x), after.
        split; [reflexivity|]. cbn [Py.lower map]. f_equal; assumption.
      * intros [x [after [H1 H2]]]. destruct x as [|c' x]; [discriminate|].
        injection H1 as <- ->. cbn [Py.lower map] in H2.
        injection H2 as Hc Hx. split; [assumption | now exists x, after].
Qed.

Lemma lower_length (x : text) : length (Py.lower x) = length x.
Proof. apply length_map. Qed.

Lemma run_opt_cat (fl : Re.flags) (r k : Re.regex) (s : Re.cursor) :
  Re.run fl (Re.Cat (Re.Opt r) k) s
  = Re.run fl (Re.Cat r k) s ++ Re.run fl k s.
Proof.
  rewrite !run_cat. change (Re.run fl (Re.Opt r) s) with (Re.run fl r s ++ [s]).
  rewrite flat_map_app. cbn [flat_map]. now rewrite app_nil_r.
Qed.

Lemma run_auto_invoc sn b g :
  Re.run ignorecase AUTO_INVOC_RE (Re.Cursor sn b g) <> [] <->
  auto_invoc_at b = true.
Proof.
  unfold AUTO_INVOC_RE, auto_invoc_at. cbn [Re.Seq].
  rewrite run_word_cat.
  destruct (lits_match ignorecase (lit "auto") b);
    [|split; [congruence | discriminate]].
  cbn [andb]. rewrite run_opt_cat.
  rewrite (run_single_cat _ _ _ _ _ _ _ (single_dot ignorecase)).
  change (length (lit "auto")) with 4.
  destruct (skipn 4 b) as [|c b'] eqn:E.
  - rewrite run_word_cat. cbn. split; [congruence | discriminate].
  - rewrite !run_word_cat.
    destruct (Re.dot_matches ignorecase c);
      destruct (lits_match ignorecase (lit "invoc") b');
      destruct (lits_match ignorecase (lit "invoc") (c :: b'));
      cbn [Re.run app andb orb]; split; congruence.
Qed.

Lemma auto_invoc_at_spec (b : text) :
  auto_invoc_at b = true <->
  exists m after, b = m ++ after /\ auto_invoc_match m.
Proof.
  unfold auto_invoc_at. rewrite andb_true_iff, orb_true_iff. split.
  - intros [Ha Hi]. apply lits_match_ci in Ha as [a [rest [-> Ha]]].
    assert (La : length a = 4) by (rewrite <- lower_length, Ha; reflexivity).
    rewrite <- La, skipn_app, skipn_all, Nat.sub_diag in Hi. cbn [skipn app] in Hi.
    destruct Hi as [Hi | Hi].
    + destruct rest as [|c rest]; [discriminate|].
      apply andb_true_iff in Hi as [Hc Hi].
      apply lits_match_ci in Hi as [i [after [-> Hi]]].
      exists (a ++ [c] ++ i), after. split.
      * now rewrite <- !app_assoc.
      * exists a, [c], i. repeat split; auto. right. exists c. split; auto.
        unfold Re.dot_matches in Hc. cbn [Re.DOTALL ignorecase orb] in Hc.
        intros ->. now rewrite Ascii.eqb_refl in Hc.
    + apply lits_match_ci in Hi as [i [after [-> Hi]]].
      exists (a ++ [] ++ i), after. split.
      * now rewrite <- !app_assoc.
      * exists a, [], i. repeat split; auto.
  - intros [m [after [-> [a [mid [i [-> [Ha [Hi Hmid]]]]]]]]].
    assert (La : length a = 4) by (rewrite <- lower_length, Ha; reflexivity).
    split.
    + apply lits_match_ci. exists a, ((mid ++ i) ++ after).
      split; [now rewrite <- !app_assoc | exact Ha].
    + rewrite <- !app_assoc, <- La, skipn_app, skipn_all, Nat.sub_diag.
      cbn [skipn app]. destruct Hmid as [-> | [c [-> Hc]]].
      * right. apply lits_match_ci. now exists i, after.
      * left. cbn [app]. apply andb_true_iff. split.
        -- unfold Re.dot_matches. cbn [Re.DOTALL ignorecase orb].
           destruct (Ascii.eqb_spec c newline); [contradiction | reflexivity].
        -- apply lits_match_ci. now exists i, after.
Qed.

Lemma auto_present_iff (body description : text) :
  passed (check_at 0 (validate_quality body description)) = true <->
  exists before m after, body = before ++ m ++ after /\ auto_invoc_match m.
Proof.
  change (passed (check_at 0 (validate_quality body description)))
    with (truthy body
          && match Re.search ignorecase AUTO_INVOC_RE body with
             | Some _ => true
             | None => false
             end).
  assert (S : (match Re.search ignorecase AUTO_INVOC_RE body with
               | Some _ => true
               | None => false
               end) = true
              <-> Re.search ignorecase AUTO_INVOC_RE body <> None)
    by (destruct (Re.search ignorecase AUTO_INVOC_RE body);
        split; congruence).
  rewrite andb_true_iff, S. unfold Re.search. rewrite scan_finds.
  split.
  - intros [_ [a [b [-> H]]]]. apply run_auto_invoc in H.
    apply auto_invoc_at_spec in H as [m [after [-> Hm]]].
    now exists a, m, after.
  - intros [before [m [after [-> Hm]]]]. split.
    + destruct Hm as [a [mid [i [-> [Ha _]]]]].
      destruct a; [discriminate|]. destruct before; reflexivity.
    + exists before, (m ++ after). split; [reflexivity|].
      apply run_auto_invoc, auto_invoc_at_spec. now exists m, after.
Qed.

Lemma quality_auto_points (body description : text) :
  pointsAwarded (check_at 0 (validate_quality body description))
  = award (passed (check_at 0 (validate_quality body description))) 2.
Proof. reflexivity. Qed.

(** C3, as the script has it.  Quality check 1 gives its 2 points
    exactly when the body contains, in either case, "auto", then at
    most one character that is not a newline, then "invoc".  Every body
    containing "Auto-Invocation" passes; the body "automatic
    invocation" does not, because six characters separate "auto" from
    "invoc". *)
Theorem auto_invocation_one_char_gap :
  (forall body description,
      let c := check_at 0 (validate_quality body description) in
      (pointsAwarded c = 2 <->
       exists before m after,
         body = before ++ m ++ after /\ auto_invoc_match m)
      /\ (passed c = true <-> pointsAwarded c = 2)
      /\ (pointsAwarded c = 2 \/ pointsAwarded c = 0))
  /\ (forall before after description,
        pointsAwarded
          (check_at 0 (validate_quality
                         (before ++ lit "Auto-Invocation" ++ after)
                         description)) = 2)
  /\ (forall description,
        pointsAwarded
          (check_at 0 (validate_quality (lit "automatic invocation")
                                        description)) = 0).
Proof.
  assert (P : forall body description,
             pointsAwarded (check_at 0 (validate_quality body description)) = 2
             <-> passed (check_at 0 (validate_quality body description)) = true).
  { intros body description. rewrite quality_auto_points.
    destruct (passed (check_at 0 (validate_quality body description)));
      simpl; split; congruence. }
  split; [|split].
  - intros body description c. subst c. split; [|split].
    + rewrite P. apply auto_present_iff.
    + symmetry. apply P.
    + rewrite quality_auto_points.
      destruct (passed (check_at 0 (validate_quality body description)));
        simpl; auto.
  - intros before after description. apply P, auto_present_iff.
    exists before, (lit "Auto-Invoc"), (lit "ation" ++ after). split.
    + now rewrite (app_assoc (lit "Auto-Invoc")).
    + exists (lit "Auto"), (lit "-"), (lit "Invoc").
      repeat split; try reflexivity.
      right. exists (ch "-"). split; [reflexivity | discriminate].
  - intros description. reflexivity.
Qed.

(** C3, as the spec has it, fails: the body "automatic invocation"
    contains that phrase and gets no points. *)
Lemma automatic_invocation_fails :
  occurs (lit "automatic invocation") (lit "automatic invocation")
  /\ passed (check_at 0 (validate_quality (lit "automatic invocation") []))
     = false
  /\ pointsAwarded
       (check_at 0 (validate_quality (lit "automatic invocation") [])) = 0.
Proof.
  split; [exists [], []; reflexivity | split; reflexivity].
Qed.

(** ** One or more of a single character *)

Section SinglePlus.

Variable fl : Re.flags.
Variable r : Re.regex.
Variable p : ascii -> bool.
Hypothesis r_single : single fl r p.

Lemma run_plus greedy sn rs g :
  Re.run fl (Re.Plus greedy r) (Re.Cursor sn rs g)
  = match rs with
    | c :: rs' =>
        if p c
        then Re.run fl (Re.Star greedy r) (Re.Cursor (c :: sn) rs' g)
        else []
    | [] => []
    end.
Proof. unfold Re.Plus. now apply run_single_cat. Qed.

Lemma run_plus_sound greedy sn rs g s' :
  In s' (Re.run fl (Re.Plus greedy r) (Re.Cursor sn rs g)) ->
  exists w, w <> [] /\ forallb p w = true /\ rs = w ++ Re.rest s'
            /\ Re.seen s' = rev w ++ sn /\ Re.group1 s' = g.
Proof.
  rewrite run_plus. destruct rs as [|c rs]; [intros []|].
  destruct (p c) eqn:Hc; [|intros []].
  intros H. apply (run_star_sound fl r p r_single) in H
    as [w [Hw [E1 [E2 E3]]]].
  exists (c :: w). repeat split.
  - discriminate.
  - simpl. now rewrite Hc.
  - simpl. now rewrite E1 at 1.
  - rewrite E2. simpl. now rewrite <- app_assoc.
  - assumption.
Qed.

Lemma run_plus_complete greedy w sn rs g :
  w <> [] -> forallb p w = true ->
  In (Re.Cursor (rev w ++ sn) rs g)
     (Re.run fl (Re.Plus greedy r) (Re.Cursor sn (w ++ rs) g)).
Proof.
  intros Hne Hw. destruct w as [|c w]; [contradiction|].
  simpl in Hw. apply andb_true_iff in Hw as [Hc Hw].
  rewrite run_plus. cbn [app rev]. rewrite Hc, <- app_assoc.
  now apply (run_star_complete fl r p r_single).
Qed.

Lemma run_plus_greedy_hd c w sn rs g :
  p c = true -> forallb p w = true ->
  match rs with [] => True | x :: _ => p x = false end ->
  exists others,
    Re.run fl (Re.Plus true r) (Re.Cursor sn (c :: w ++ rs) g)
    = Re.Cursor (rev (c :: w) ++ sn) rs g :: others.
Proof.
  intros Hc Hw Hrs. rewrite run_plus, Hc.
  destruct (run_star_greedy_hd fl r p r_single w (c :: sn) rs g Hw Hrs)
    as [others ->].
  exists others. cbn [rev]. now rewrite <- app_assoc.
Qed.

End SinglePlus.

Lemma flat_map_nonempty {A B : Type} (f : A -> list B) (l : list A) :
  flat_map f l <> [] <-> exists x, In x l /\ f x <> [].
Proof.
  induction l as [|a l IH]; cbn [flat_map].
  - split; [intros H; now contradiction H | intros [x [[] _]]].
  - split.
    + intros H. destruct (f a) eqn:E.
      * apply IH in H as [x [Hx Hf]]. exists x. split; [now right | exact Hf].
      * exists a. split; [now left | congruence].
    + intros [x [[<- | Hx] Hf]].
      * destruct (f a); [contradiction | discriminate].
      * intros H. apply app_eq_nil in H as [_ H].
        revert H. apply IH. now exists x.
Qed.

Lemma hd_error_none {A : Type} (l : list A) : hd_error l = None <-> l = [].
Proof. destruct l; simpl; split; intros; congruence. Qed.

(** ** Stripping *)

Lemma forallb_lstrip (q p : ascii -> bool) (s : text) :
  forallb q s = true -> forallb q (Py.lstrip_by p s) = true.
Proof.
  induction s as [|c s IH]; [reflexivity|].
  intros H. cbn [Py.lstrip_by]. destruct (p c); [|exact H].
  simpl in H. apply andb_true_iff in H as [_ H]. auto.
Qed.

Lemma forallb_rev (q : ascii -> bool) (s : text) :
  forallb q (rev s) = forallb q s.
Proof.
  induction s as [|c s IH]; [reflexivity|].
  cbn [rev]. rewrite forallb_app, IH. simpl.
  rewrite andb_true_r. apply andb_comm.
Qed.

Lemma forallb_strip (q p : ascii -> bool) (s : text) :
  forallb q s = true -> forallb q (Py.strip_by p s) = true.
Proof.
  intros H. unfold Py.strip_by, Py.rstrip_by.
  rewrite forallb_rev. apply forallb_lstrip. rewrite forallb_rev.
  now apply forallb_lstrip.
Qed.

(** ** The name *)

Lemma name_class_char (c : ascii) :
  Re.in_class [(ch "a", ch "z"); (ch "0", ch "9"); (ch "-", ch "-")] c
  = name_char c.
Proof.
  destruct c as [[] [] [] [] [] [] [] []]; reflexivity.
Qed.

Lemma single_name_class :
  single Re.no_flags
         (Re.Class [(ch "a", ch "z"); (ch "0", ch "9"); (ch "-", ch "-")])
         name_char.
Proof.
  intros s. cbn [Re.run]. unfold Re.step.
  destruct (Re.rest s); [reflexivity|]. now rewrite name_class_char.
Qed.

Lemma name_char_not_newline (c : ascii) :
  name_char c = true -> negb (Ascii.eqb c newline) = true.
Proof.
  destruct c as [[] [] [] [] [] [] [] []]; intros H;
    solve [reflexivity | discriminate H].
Qed.

(** On a name without a newline, [NAME_REGEX] matches exactly the
    non-empty names made of name characters. *)
Lemma name_regex_iff (name : text) :
  no_newline name = true ->
  Re.rmatch Re.no_flags NAME_REGEX name <> None
  <-> name <> [] /\ forallb name_char name = true.
Proof.
  intros Hnl. unfold Re.rmatch, NAME_REGEX, Re.start. cbn [Re.Seq].
  rewrite run_bol_cat. cbn [Re.at_bol Re.seen].
  rewrite run_cat, hd_error_none, flat_map_nonempty. split.
  - intros [s' [Hin Heol]].
    apply (run_plus_sound _ _ _ single_name_class) in Hin
      as [w [Hne [Hw [E1 _]]]].
    rewrite run_eol_eps in Heol.
    destruct (Re.at_eol Re.no_flags s') eqn:E; [|contradiction].
    unfold Re.at_eol in E. destruct (Re.rest s') as [|c r].
    + rewrite app_nil_r in E1. subst w. auto.
    + apply andb_true_iff in E as [E _]. apply Ascii.eqb_eq in E. subst c.
      rewrite E1 in Hnl. unfold no_newline in Hnl.
      rewrite forallb_app in Hnl. apply andb_true_iff in Hnl as [_ Hnl].
      cbn [forallb] in Hnl. rewrite Ascii.eqb_refl in Hnl. discriminate.
  - intros [Hne Hw]. exists (Re.Cursor (rev name ++ []) [] None). split.
    + pose proof (run_plus_complete _ _ _ single_name_class true
                                    name [] [] None Hne Hw) as H.
      now rewrite (app_nil_r name) in H.
    + rewrite run_eol_eps. cbn [Re.at_eol Re.rest]. discriminate.
Qed.

(** Group 1 of the name pattern never holds a newline. *)
Lemma name_line_group (s m : Re.cursor) :
  In m (Re.run multiline NAME_LINE_RE s) ->
  exists g, Re.group1 m = Some g /\ no_newline g = true.
Proof.
  unfold NAME_LINE_RE. cbn [Re.Seq]. rewrite run_bol_cat.
  destruct (Re.at_bol multiline s); [|intros []].
  destruct s as [sn rs g0]. rewrite run_word_cat.
  destruct (lits_match multiline (lit "name:") rs); [|intros []].
  rewrite run_cat, in_flat_map. intros [s2 [_ H]].
  rewrite run_cat, in_flat_map in H. destruct H as [s3 [H3 Hm]].
  rewrite run_eol_eps in Hm.
  destruct (Re.at_eol multiline s3); [|destruct Hm].
  destruct Hm as [<- | []].
  change (Re.run multiline (Re.Group (Re.Plus true Re.Dot)) s2)
    with (map (Re.capture s2) (Re.run multiline (Re.Plus true Re.Dot) s2))
    in H3.
  apply in_map_iff in H3 as [s4 [<- H4]].
  destruct s2 as [sn2 rs2 g2].
  apply (run_plus_sound _ _ _ (single_dot multiline)) in H4
    as [w [_ [Hw [E1 _]]]].
  exists w. split.
  - unfold Re.capture. cbn [Re.group1 Re.rest]. f_equal.
    rewrite E1, length_app, Nat.add_sub, firstn_app, firstn_all, Nat.sub_diag.
    cbn [firstn]. apply app_nil_r.
  - exact Hw.
Qed.

Lemma extract_name_no_newline (fm_text name : text) :
  extract_name fm_text = Some name -> no_newline name = true.
Proof.
  unfold extract_name.
  destruct (Re.search multiline NAME_LINE_RE fm_text) as [m|] eqn:E;
    [|discriminate].
  intros [= <-]. apply scan_result in E as [a [b [_ Hin]]].
  apply name_line_group in Hin as [g [Hg Hnl]].
  unfold Re.group. rewrite Hg.
  unfold Py.strip_chars, Py.strip, no_newline.
  now apply forallb_strip, forallb_strip.
Qed.

Lemma parsed_name_no_newline (content name : text) :
  parsed_name content = Some name -> no_newline name = true.
Proof.
  unfold parsed_name, parse_frontmatter.
  destruct (Re.rmatch dotall FRONTMATTER_RE content); [|discriminate].
  cbn [fst fm_name]. apply extract_name_no_newline.
Qed.

(** What the third critical check computes. *)
Lemma critical_name_check (skill_path : directory) (content : text) :
  let name := get_or_empty (parsed_name content) in
  passed (check_at 2 (validate_critical skill_path (Some content)))
  = truthy name
    && (match Re.rmatch Re.no_flags NAME_REGEX name with
        | Some _ => true
        | None => false
        end)
    && (length name <=? MAX_NAME_LEN).
Proof.
  unfold parsed_name, validate_critical.
  destruct content as [|c content]; [reflexivity|].
  destruct (parse_frontmatter (c :: content)) as [[[data|] body] error];
    reflexivity.
Qed.

Lemma name_char_rejects (c : ascii) :
  is_upper c = true \/ c = ch " " \/ c = ch "_" -> name_char c = false.
Proof.
  destruct c as [[] [] [] [] [] [] [] []];
    intros [H | [H | H]]; solve [reflexivity | discriminate H].
Qed.

(** C9.  Critical check 3 passes exactly when the parsed front matter
    has a name, and that name is not empty, is made of lowercase
    letters, digits and hyphens only, and has at most 64 characters.  A
    name with an uppercase letter, a space or an underscore fails. *)
Theorem name_check_iff :
  (forall skill_path content,
      passed (check_at 2 (validate_critical skill_path content)) = true
      <-> exists doc name,
            content = Some doc
            /\ parsed_name doc = Some name
            /\ name <> []
            /\ forallb name_char name = true
            /\ length name <= 64)
  /\ (forall skill_path doc name c,
        parsed_name doc = Some name ->
        In c name ->
        is_upper c = true \/ c = ch " " \/ c = ch "_" ->
        passed (check_at 2 (validate_critical skill_path (Some doc))) = false).
Proof.
  assert (main_part : forall skill_path content,
      passed (check_at 2 (validate_critical skill_path content)) = true
      <-> exists doc name,
            content = Some doc
            /\ parsed_name doc = Some name
            /\ name <> []
            /\ forallb name_char name = true
            /\ length name <= 64).
  { intros skill_path [doc|].
    2:{ split; [intros H; cbn in H; discriminate H
               | intros [doc [name [H _]]]; discriminate H]. }
    rewrite critical_name_check.
    destruct (parsed_name doc) as [name|] eqn:E; cbn [get_or_empty].
    2:{ split; [discriminate|]. intros [doc' [name [[= <-] [H _]]]].
        rewrite E in H. discriminate H. }
    pose proof (name_regex_iff name (parsed_name_no_newline _ _ E)) as R.
    rewrite !andb_true_iff, Nat.leb_le. unfold MAX_NAME_LEN. split.
    - intros [[_ Hre] Hlen]. exists doc, name.
      assert (Hm : Re.rmatch Re.no_flags NAME_REGEX name <> None)
        by (destruct (Re.rmatch Re.no_flags NAME_REGEX name);
            [discriminate | discriminate Hre]).
      apply R in Hm as [Hne Hch]. auto.
    - intros [doc' [name' [[= <-] [Hn [Hne [Hch Hlen]]]]]].
      rewrite E in Hn. injection Hn as <-.
      assert (Hm : Re.rmatch Re.no_flags NAME_REGEX name <> None)
        by (apply R; auto).
      repeat split.
      + destruct name; [contradiction | reflexivity].
      + destruct (Re.rmatch Re.no_flags NAME_REGEX name);
          [reflexivity | contradiction].
      + assumption. }
  split; [exact main_part|].
  intros skill_path doc name c Hname Hin Hc.
  destruct (passed (check_at 2 (validate_critical skill_path (Some doc))))
    eqn:E; [|reflexivity].
  apply main_part in E
    as [doc' [name' [[= <-] [Hname' [_ [Hch _]]]]]].
  rewrite Hname in Hname'. injection Hname' as <-.
  rewrite forallb_forall in Hch. specialize (Hch c Hin).
  rewrite (name_char_rejects c Hc) in Hch. discriminate.
Qed.

Lemma name_check_iff_witness :
  let doc := lit "---" ++ newline :: lit "name: My_skill" ++ newline
             :: lit "---" ++ newline :: lit "text" in
  parsed_name doc = Some (lit "My_skill")
  /\ passed (check_at 2 (validate_critical
                          (Directory (File (Ok doc)) None None NoFile NoFile)
                          (Some doc))) = false.
Proof.
  intro doc.
  assert (H : parsed_name doc = Some (lit "My_skill"))
    by (vm_compute; reflexivity).
  split; [exact H|].
  apply (proj2 name_check_iff _ doc (lit "My_skill") (ch "_") H).
  - simpl. tauto.
  - right. right. reflexivity.
Defined.

(** ** The name line *)

Lemma name_line_needs_prefix sn rs g :
  lits_match multiline (lit "name:") rs = false ->
  Re.run multiline NAME_LINE_RE (Re.Cursor sn rs g) = [].
Proof.
  intros H. unfold NAME_LINE_RE. cbn [Re.Seq]. rewrite run_bol_cat.
  destruct (Re.at_bol multiline (Re.Cursor sn rs g)); [|reflexivity].
  now rewrite run_word_cat, H.
Qed.

Lemma name_line_needs_bol c sn rs g :
  c <> newline ->
  Re.run multiline NAME_LINE_RE (Re.Cursor (c :: sn) rs g) = [].
Proof.
  intros H. unfold NAME_LINE_RE. cbn [Re.Seq]. rewrite run_bol_cat.
  cbn [Re.at_bol Re.seen Re.MULTILINE multiline andb].
  now destruct (Ascii.eqb_spec c newline).
Qed.

Lemma no_newline_cons c l :
  no_newline (c :: l) = true <-> c <> newline /\ no_newline l = true.
Proof.
  unfold no_newline. cbn [forallb]. rewrite andb_true_iff.
  destruct (Ascii.eqb_spec c newline); simpl; split; intros [? ?];
    split; congruence.
Qed.

(** Inside a line the search moves on to the next line. *)
Lemma scan_skip_inside (l : text) : forall c sn more,
  no_newline l = true -> c <> newline ->
  Re.scan multiline NAME_LINE_RE (c :: sn) (l ++ newline :: more)
  = Re.scan multiline NAME_LINE_RE (newline :: rev l ++ c :: sn) more.
Proof.
  induction l as [|x l IH]; intros c sn more Hl Hc.
  - cbn [app rev Re.scan]. now rewrite name_line_needs_bol.
  - apply no_newline_cons in Hl as [Hx Hl].
    cbn [app Re.scan]. rewrite name_line_needs_bol by assumption.
    rewrite IH by assumption. cbn [rev]. now rewrite <- app_assoc.
Qed.

Lemma startswith_within_line (w l more : text) :
  no_newline w = true ->
  Py.startswith w (l ++ newline :: more) = true ->
  Py.startswith w l = true.
Proof.
  revert l; induction w as [|a w IH]; intros l Hw H; [reflexivity|].
  apply no_newline_cons in Hw as [Ha Hw].
  destruct l as [|x l]; cbn [app Py.startswith] in *.
  - apply andb_true_iff in H as [H _]. apply Ascii.eqb_eq in H. contradiction.
  - apply andb_true_iff in H as [H1 H2]. rewrite H1. cbn [andb]. auto.
Qed.

(** A line that does not begin with [name:] is passed over. *)
Lemma scan_skip_line (l : text) sn more :
  other_line l ->
  Re.scan multiline NAME_LINE_RE sn (l ++ newline :: more)
  = Re.scan multiline NAME_LINE_RE (newline :: rev l ++ sn) more.
Proof.
  intros [Hl Hp].
  assert (Hm : lits_match multiline (lit "name:") (l ++ newline :: more)
               = false).
  { rewrite lits_match_exact by reflexivity.
    destruct (Py.startswith (lit "name:") (l ++ newline :: more)) eqn:E;
      [|reflexivity].
    apply startswith_within_line in E; [congruence | reflexivity]. }
  destruct l as [|x l].
  - cbn [app rev Re.scan] in *. now rewrite name_line_needs_prefix.
  - apply no_newline_cons in Hl as [Hx Hl].
    cbn [app Re.scan] in *. rewrite name_line_needs_prefix by assumption.
    rewrite scan_skip_inside by assumption.
    cbn [rev]. now rewrite <- app_assoc.
Qed.

Lemma join_lines_cons (l : text) (ls : list text) :
  ls <> [] -> join_lines (l :: ls) = l ++ newline :: join_lines ls.
Proof. destruct ls; [contradiction | reflexivity]. Qed.

(** The lines before the first [name:] line are passed over. *)
Lemma scan_skip_lines (before : list text) : forall sn target after,
  Forall other_line before ->
  exists sn',
    Re.at_bol multiline (Re.Cursor sn' [] None)
    = Re.at_bol multiline (Re.Cursor sn [] None)
      || match before with [] => false | _ => true end
    /\ Re.scan multiline NAME_LINE_RE sn
                (join_lines (before ++ target :: after))
       = Re.scan multiline NAME_LINE_RE sn' (join_lines (target :: after)).
Proof.
  induction before as [|l before IH]; intros sn target after H.
  - exists sn. split; [now rewrite orb_false_r | reflexivity].
  - inversion H as [|? ? Hl Hb]; subst.
    cbn [app]. rewrite join_lines_cons by (destruct before; discriminate).
    rewrite scan_skip_line by assumption.
    destruct (IH (newline :: rev l ++ sn) target after Hb) as [sn' [E1 E2]].
    exists sn'. split; [|exact E2].
    rewrite E1. cbn [Re.at_bol Re.seen]. rewrite Ascii.eqb_refl.
    cbn. now rewrite orb_true_r.
Qed.

Lemma lits_match_self (w more : text) :
  lits_match multiline w (w ++ more) = true.
Proof.
  rewrite lits_match_exact by reflexivity.
  apply startswith_spec. now exists more.
Qed.

Lemma firstn_length_app {A : Type} (w more : list A) :
  firstn (length w) (w ++ more) = w.
Proof.
  rewrite firstn_app, firstn_all, Nat.sub_diag. cbn [firstn]. apply app_nil_r.
Qed.

Lemma skipn_length_app {A : Type} (w more : list A) :
  skipn (length w) (w ++ more) = more.
Proof.
  rewrite skipn_app, skipn_all, Nat.sub_diag. reflexivity.
Qed.

(** At the start of a line [name:], white space, a visible character
    and the rest of the line: the preferred match puts the line from
    its first visible character on in group 1. *)
Lemma name_line_matches sn ws c tl more :
  Re.at_bol multiline (Re.Cursor sn [] None) = true ->
  forallb Py.isspace ws = true ->
  Py.isspace c = false ->
  no_newline (c :: tl) = true ->
  match more with [] => True | x :: _ => x = newline end ->
  exists m others,
    Re.run multiline NAME_LINE_RE
           (Re.Cursor sn (lit "name:" ++ (ws ++ c :: tl) ++ more) None)
    = m :: others
    /\ Re.group m = c :: tl.
Proof.
  intros Hbol Hws Hc Hline Hmore.
  apply no_newline_cons in Hline as [Hcn Htl].
  unfold NAME_LINE_RE. cbn [Re.Seq]. rewrite run_bol_cat.
  change (Re.at_bol multiline
            (Re.Cursor sn (lit "name:" ++ (ws ++ c :: tl) ++ more) None))
    with (Re.at_bol multiline (Re.Cursor sn [] None)).
  rewrite Hbol, run_word_cat, lits_match_self.
  rewrite firstn_length_app, skipn_length_app, run_cat.
  rewrite <- app_assoc. cbn [app].
  destruct (run_star_greedy_hd multiline Re.Space Py.isspace
              (single_space multiline) ws
              (rev (lit "name:") ++ sn) (c :: tl ++ more) None Hws Hc)
    as [others1 ->].
  cbn [flat_map]. rewrite run_cat.
  change (Re.run multiline (Re.Group (Re.Plus true Re.Dot)) ?s)
    with (map (Re.capture s) (Re.run multiline (Re.Plus true Re.Dot) s)).
  assert (Hdc : Re.dot_matches multiline c = true).
  { unfold Re.dot_matches. cbn [Re.DOTALL multiline orb].
    now destruct (Ascii.eqb_spec c newline). }
  assert (Hdm : match more with
                | [] => True
                | x :: _ => Re.dot_matches multiline x = false
                end).
  { destruct more as [|x more]; [exact I|]. subst x.
    unfold Re.dot_matches. cbn [Re.DOTALL multiline orb].
    now rewrite Ascii.eqb_refl. }
  destruct (run_plus_greedy_hd multiline Re.Dot (Re.dot_matches multiline)
              (single_dot multiline) c tl
              (rev ws ++ rev (lit "name:") ++ sn) more None Hdc Htl Hdm)
    as [others2 ->].
  cbn [map flat_map]. rewrite run_eol_eps.
  assert (Heol : Re.at_eol multiline
                   (Re.capture
                      (Re.Cursor (rev ws ++ rev (lit "name:") ++ sn)
                                 (c :: tl ++ more) None)
                      (Re.Cursor (rev (c :: tl)
                                  ++ rev ws ++ rev (lit "name:") ++ sn)
                                 more None)) = true).
  { unfold Re.at_eol, Re.capture. cbn [Re.rest].
    destruct more as [|x more]; [reflexivity|]. subst x.
    now rewrite Ascii.eqb_refl. }
  rewrite Heol. cbn [app]. eexists. eexists. split; [reflexivity|].
  unfold Re.group, Re.capture. cbn [Re.group1 Re.rest].
  change (c :: tl ++ more) with ((c :: tl) ++ more).
  now rewrite length_app, Nat.add_sub, firstn_length_app.
Qed.

(** A text with a visible character is white space followed by a
    visible character and a rest. *)
Lemma has_visible_split (s : text) :
  has_visible s = true ->
  exists ws c tl, s = ws ++ c :: tl /\ forallb Py.isspace ws = true
                  /\ Py.isspace c = false.
Proof.
  induction s as [|x s IH]; [discriminate|].
  unfold has_visible. cbn [existsb].
  destruct (Py.isspace x) eqn:Hx.
  - cbn [negb orb]. intros H. destruct (IH H) as [ws [c [tl [-> [Hws Hc]]]]].
    exists (x :: ws), c, tl. cbn [forallb]. rewrite Hx, Hws. auto.
  - intros _. exists [], x, s. auto.
Qed.

Lemma lstrip_spaces (ws : text) (c : ascii) (tl : text) :
  forallb Py.isspace ws = true -> Py.isspace c = false ->
  Py.lstrip_by Py.isspace (ws ++ c :: tl) = c :: tl.
Proof.
  intros Hws Hc. induction ws as [|x ws IH].
  - cbn [app Py.lstrip_by]. now rewrite Hc.
  - cbn [forallb] in Hws. apply andb_true_iff in Hws as [Hx Hws].
    cbn [app Py.lstrip_by]. rewrite Hx. auto.
Qed.

Lemma strip_leading_spaces (ws : text) (c : ascii) (tl : text) :
  forallb Py.isspace ws = true -> Py.isspace c = false ->
  Py.strip (ws ++ c :: tl) = Py.strip (c :: tl).
Proof.
  intros Hws Hc. unfold Py.strip, Py.strip_by.
  rewrite lstrip_spaces by assumption.
  cbn [Py.lstrip_by]. now rewrite Hc.
Qed.

(** The name found in a block whose first [name:] line has something
    visible after the colon. *)
Lemma extract_name_first_line (before after : list text) (rem : text) :
  Forall other_line before ->
  no_newline rem = true ->
  has_visible rem = true ->
  extract_name (join_lines (before ++ (lit "name:" ++ rem) :: after))
  = Some (Py.strip_chars quotes (Py.strip rem)).
Proof.
  intros Hb Hnl Hv.
  destruct (has_visible_split rem Hv) as [ws [c [tl [-> [Hws Hc]]]]].
  unfold no_newline in Hnl. rewrite forallb_app in Hnl.
  apply andb_true_iff in Hnl as [_ Hnl].
  unfold extract_name, Re.search.
  destruct (scan_skip_lines before [] (lit "name:" ++ ws ++ c :: tl) after Hb)
    as [sn' [Hbol Hskip]].
  unfold text in *. rewrite Hskip. clear Hskip.
  cbn [Re.at_bol Re.seen orb] in Hbol.
  assert (E : exists more,
             join_lines ((lit "name:" ++ ws ++ c :: tl) :: after)
             = lit "name:" ++ (ws ++ c :: tl) ++ more
             /\ match more with [] => True | x :: _ => x = newline end).
  { destruct after as [|l after].
    - exists []. split; [|exact I]. unfold join_lines. cbn [Py.join].
      now rewrite app_nil_r.
    - exists (newline :: join_lines (l :: after)). split; [|reflexivity].
      rewrite join_lines_cons by discriminate. now rewrite <- app_assoc. }
  destruct E as [more [-> Hmore]].
  destruct (name_line_matches sn' ws c tl more Hbol Hws Hc Hnl Hmore)
    as [m [others [Hrun Hg]]].
  assert (S : Re.scan multiline NAME_LINE_RE sn'
                      (lit "name:" ++ (ws ++ c :: tl) ++ more) = Some m).
  { destruct (lit "name:" ++ (ws ++ c :: tl) ++ more);
      cbn [Re.scan]; now rewrite Hrun. }
  rewrite S, Hg. now rewrite strip_leading_spaces.
Qed.

Lemma lstrip_by_spec (p : ascii -> bool) (s : text) :
  exists a, s = a ++ Py.lstrip_by p s /\ forallb p a = true
            /\ match Py.lstrip_by p s with
               | [] => True
               | x :: _ => p x = false
               end.
Proof.
  induction s as [|c s IH].
  - exists []. repeat split.
  - cbn [Py.lstrip_by]. destruct (p c) eqn:Hc.
    + destruct IH as [a [E [Ha Hh]]]. exists (c :: a). repeat split.
      * cbn [app]. now rewrite <- E.
      * cbn [forallb]. now rewrite Hc.
      * exact Hh.
    + exists []. repeat split. exact Hc.
Qed.

(** [strip] removes a run of the given characters at each end and
    leaves a text that neither begins nor ends with one of them. *)
Lemma strip_by_spec (p : ascii -> bool) (s : text) :
  exists a b, s = a ++ Py.strip_by p s ++ b
              /\ forallb p a = true /\ forallb p b = true
              /\ ends_clear p (Py.strip_by p s).
Proof.
  unfold Py.strip_by, Py.rstrip_by.
  destruct (lstrip_by_spec p s) as [a [Ea [Ha Hh]]].
  set (t := Py.lstrip_by p s) in *.
  destruct (lstrip_by_spec p (rev t)) as [b [Eb [Hb Hl]]].
  set (u := Py.lstrip_by p (rev t)) in *.
  assert (Et : t = rev u ++ rev b).
  { rewrite <- rev_app_distr, <- Eb. symmetry. apply rev_involutive. }
  exists a, (rev b). repeat split.
  - now rewrite <- Et.
  - exact Ha.
  - now rewrite forallb_rev.
  - destruct (rev u) as [|x ru] eqn:E; [exact I|].
    rewrite Et in Hh. exact Hh.
  - rewrite rev_involutive. exact Hl.
Qed.

(** C5, as the script has it.  When the first line of the block that
    begins with [name:] has a visible character after the colon, the
    name is the rest of that line without the white space around it and
    then without the quote characters at either end, and all of those
    go, paired or not: what is left neither begins nor ends with a
    quote. *)
Theorem name_from_first_line (before after : list text) (rem : text) :
  Forall other_line before ->
  no_newline rem = true ->
  has_visible rem = true ->
  extract_name (join_lines (before ++ (lit "name:" ++ rem) :: after))
  = Some (Py.strip_chars quotes (Py.strip rem))
  /\ exists a b,
       Py.strip rem = a ++ Py.strip_chars quotes (Py.strip rem) ++ b
       /\ forallb is_quote a = true /\ forallb is_quote b = true
       /\ ends_clear is_quote (Py.strip_chars quotes (Py.strip rem)).
Proof.
  intros Hb Hnl Hv. split.
  - now apply extract_name_first_line.
  - apply (strip_by_spec is_quote).
Qed.

Lemma name_from_first_line_witness :
  extract_name
    (join_lines ([lit "title: x"]
                 ++ (lit "name:" ++ lit " 'my-skill' ")
                 :: [lit "description: d"]))
  = Some (lit "my-skill").
Proof.
  refine (proj1 (name_from_first_line [lit "title: x"] [lit "description: d"]
                                      (lit " 'my-skill' ") _ _ _)).
  - constructor; [split; reflexivity | constructor].
  - reflexivity.
  - reflexivity.
Defined.

(** A [name:] line with nothing after the colon: the white space of
    the pattern runs over the newline and the value is taken from the
    line that follows. *)
Lemma blank_name_line_takes_next_line :
  extract_name (join_lines [lit "name:"; lit "foo: bar"])
  = Some (lit "foo: bar").
Proof. vm_compute. reflexivity. Qed.

(** C5, as the spec has it, fails: a quote with no partner at the other
    end is removed all the same. *)
Lemma unpaired_quote_is_stripped :
  let rem := ch " " :: dquote :: lit "foo" in
  extract_name (join_lines ([] ++ (lit "name:" ++ rem) :: []))
  = Some (lit "foo")
  /\ spec_unquote (Py.strip rem) = dquote :: lit "foo"
  /\ extract_name (join_lines ([] ++ (lit "name:" ++ rem) :: []))
     <> Some (spec_unquote (Py.strip rem)).
Proof.
  split; [|split]; vm_compute; [reflexivity | reflexivity | discriminate].
Qed.

(** ** The whole run *)

Lemma critical_shape (skill_path : directory) (content : option text) :
  map pointsMax (validate_critical skill_path content) = [3; 3; 3; 3; 3].
Proof.
  unfold validate_critical.
  destruct content as [[|c content]|]; try reflexivity.
  destruct (parse_frontmatter (c :: content)) as [[data body] error].
  reflexivity.
Qed.

Lemma quality_shape (body description : text) :
  map pointsMax (validate_quality body description) = [2; 2; 2; 1].
Proof. reflexivity. Qed.

Lemma structure_shape (skill_path : directory) (checks : list CheckResult) :
  validate_structure skill_path = Ok checks ->
  map pointsMax checks = [2; 2; 2; 1].
Proof.
  unfold validate_structure.
  destruct (json_check (claude_skill_json skill_path) (py_in (lit "name")));
    cbn [bind]; [|intros [=]].
  destruct (json_check (package_json skill_path) name_and_version);
    cbn [bind]; [|intros [=]].
  intros [= <-]. reflexivity.
Qed.

Lemma json_check_caught (f : file json) (test : json -> result bool) :
  json_caught f ->
  (forall data, is_container data = true -> exists b, test data = Ok b) ->
  exists b, json_check f test = Ok b.
Proof.
  intros Hf Ht. unfold json_check.
  destruct f as [|[data|e]]; cbn [json_caught] in Hf.
  - now exists false.
  - cbn [bind]. destruct (Ht data Hf) as [b ->]. now exists b.
  - destruct Hf as [-> | ->]; now exists false.
Qed.

Lemma py_in_container (key : text) (data : json) :
  is_container data = true -> exists b, py_in key data = Ok b.
Proof. destruct data; try discriminate; intros _; eexists; reflexivity. Qed.

Lemma structure_completes (skill_path : directory) :
  json_caught (claude_skill_json skill_path) ->
  json_caught (package_json skill_path) ->
  exists checks, validate_structure skill_path = Ok checks.
Proof.
  intros H1 H2. unfold validate_structure.
  destruct (json_check_caught _ (py_in (lit "name")) H1) as [b1 ->].
  { intros data. apply py_in_container. }
  destruct (json_check_caught _ name_and_version H2) as [b2 ->].
  { intros data Hd. unfold name_and_version.
    destruct (py_in_container (lit "name") data Hd) as [b ->]. cbn [bind].
    destruct b; [now apply py_in_container | now exists false]. }
  cbn [bind]. eexists. reflexivity.
Qed.

Lemma sum_of_map (f : CheckResult -> nat) (checks : list CheckResult) :
  sum_of f checks = fold_left Nat.add (map f checks) 0.
Proof.
  unfold sum_of. generalize 0.
  induction checks as [|c checks IH]; intros n; [reflexivity|].
  cbn [fold_left map]. apply IH.
Qed.

(** A run that reaches its end has the thirteen rows, five, four and
    four, and 29 points to give. *)
Lemma main_rows (skill_path : directory) (c : completed) :
  main skill_path = Ok c ->
  exists critical structure quality,
    all_checks c = critical ++ structure ++ quality
    /\ map pointsMax critical = [3; 3; 3; 3; 3]
    /\ map pointsMax structure = [2; 2; 2; 1]
    /\ map pointsMax quality = [2; 2; 2; 1]
    /\ tiers (printed c) = [(lit "CRITICAL", critical);
                            (lit "STRUCTURE", structure);
                            (lit "QUALITY", quality)]
    /\ length (all_checks c) = 13
    /\ max_score c = 29
    /\ score c = sum_of pointsAwarded (all_checks c)
    /\ exit_code c = (if PASS_THRESHOLD <=? score c then 0 else 1).
Proof.
  unfold main.
  destruct (read_skill (skill_md skill_path)) as [[content warned]|e];
    cbn [bind]; [|intros [=]].
  destruct (quality_inputs content) as [body description].
  destruct (validate_structure skill_path) as [structure|e] eqn:Es;
    cbn [bind]; [|intros [=]].
  intros [= <-].
  cbn [all_checks max_score score exit_code printed].
  pose proof (critical_shape skill_path content) as Hc.
  pose proof (structure_shape _ _ Es) as Hs.
  pose proof (quality_shape body description) as Hq.
  set (critical := validate_critical skill_path content) in *.
  set (quality := validate_quality body description) in *.
  exists critical, structure, quality.
  assert (Lc : length critical = 5)
    by (rewrite <- (length_map pointsMax), Hc; reflexivity).
  assert (Ls : length structure = 4)
    by (rewrite <- (length_map pointsMax), Hs; reflexivity).
  assert (Lq : length quality = 4)
    by (rewrite <- (length_map pointsMax), Hq; reflexivity).
  repeat split; try assumption.
  - unfold print_results. cbn [tiers].
    assert (F1 : firstn 5 (critical ++ structure ++ quality) = critical)
      by (rewrite <- Lc; apply firstn_length_app).
    assert (F2 : skipn 5 (critical ++ structure ++ quality)
                 = structure ++ quality)
      by (rewrite <- Lc; apply skipn_length_app).
    assert (F3 : skipn 9 (critical ++ structure ++ quality) = quality).
    { rewrite app_assoc.
      replace 9 with (length (critical ++ structure))
        by (rewrite length_app, Lc, Ls; reflexivity).
      apply skipn_length_app. }
    rewrite F1, F2, F3.
    replace (firstn 4 (structure ++ quality)) with structure
      by (rewrite <- Ls; symmetry; apply firstn_length_app).
    reflexivity.
  - rewrite !length_app, Lc, Ls, Lq. reflexivity.
  - rewrite sum_of_map, !map_app, Hc, Hs, Hq. reflexivity.
Qed.

(** When nothing is raised beyond what the script catches, the run
    reaches its end. *)
Lemma main_completes (skill_path : directory) :
  all_caught skill_path -> exists c, main skill_path = Ok c.
Proof.
  intros [H1 [H2 H3]]. unfold main.
  assert (R : exists cw, read_skill (skill_md skill_path) = Ok cw).
  { destruct (skill_md skill_path) as [|[content|e]]; cbn in *.
    - eexists; reflexivity.
    - eexists; reflexivity.
    - subst e. eexists; reflexivity. }
  destruct R as [[content warned] ->]. cbn [bind].
  destruct (structure_completes skill_path H2 H3) as [structure ->].
  destruct (quality_inputs content) as [body description].
  cbn [bind]. eexists. reflexivity.
Qed.

(** The thirteen rows for every directory in which nothing is raised
    beyond what the script catches. *)
Lemma thirteen_rows_when_caught (skill_path : directory) :
  all_caught skill_path ->
  exists c, main skill_path = Ok c
            /\ length (all_checks c) = 13
            /\ map pointsMax (all_checks c)
               = [3; 3; 3; 3; 3; 2; 2; 2; 1; 2; 2; 2; 1]
            /\ max_score c = 29.
Proof.
  intros H. destruct (main_completes skill_path H) as [c Hc].
  exists c. split; [exact Hc|].
  destruct (main_rows skill_path c Hc)
    as [critical [structure [quality [E [H1 [H2 [H3 [_ [L [M _]]]]]]]]]].
  repeat split; try assumption.
  now rewrite E, !map_app, H1, H2, H3.
Qed.

(** C6.  The exit status is 0 when the run reaches its end with a
    score of at least 24, and 1 in every other case; the verdict the
    report shows is the same comparison. *)
Theorem exit_code_threshold (skill_path : directory) :
  (exit_status (main skill_path) = 0
   <-> exists c, main skill_path = Ok c /\ 24 <= score c)
  /\ (exit_status (main skill_path) = 1
      <-> ~ exists c, main skill_path = Ok c /\ 24 <= score c)
  /\ (forall c, main skill_path = Ok c ->
                score c = sum_of pointsAwarded (all_checks c)
                /\ exit_code c = (if 24 <=? score c then 0 else 1)
                /\ verdict (printed c) = (24 <=? score c)).
Proof.
  destruct (main skill_path) as [c|e] eqn:E; cbn [exit_status].
  - destruct (main_rows skill_path c E)
      as [_ [_ [_ [_ [_ [_ [_ [_ [_ [_ [Hs Hx]]]]]]]]]]].
    unfold PASS_THRESHOLD in Hx.
    assert (V : verdict (printed c) = (24 <=? score c)).
    { revert E. unfold main.
      destruct (read_skill (skill_md skill_path)) as [[content warned]|e];
        cbn [bind]; [|intros [=]].
      destruct (quality_inputs content) as [body description].
      destruct (validate_structure skill_path); cbn [bind]; [|intros [=]].
      intros [= <-]. reflexivity. }
    assert (X : (exists c', Ok c = Ok c' /\ 24 <= score c') <-> 24 <= score c).
    { split; [intros [c' [[= <-] H]]; exact H | intros H; now exists c]. }
    rewrite X, Hx. split; [|split].
    + destruct (Nat.leb_spec 24 (score c)); split; intros; (lia || discriminate).
    + destruct (Nat.leb_spec 24 (score c)); split; intros; (lia || discriminate).
    + intros c' [= <-]. rewrite <- Hx. auto.
  - split; [|split].
    + split; [discriminate | intros [c [H _]]; discriminate H].
    + split; [intros _ [c [H _]]; discriminate H | reflexivity].
    + intros c H. discriminate H.
Qed.

Lemma complete_skill_scores :
  exists c, main complete_skill_directory = Ok c
            /\ score c = 29 /\ max_score c = 29 /\ exit_code c = 0
            /\ forallb passed (all_checks c) = true.
Proof.
  eexists. split; [vm_compute; reflexivity|].
  repeat split.
Qed.

Lemma exit_code_threshold_witness :
  exists c, main complete_skill_directory = Ok c
            /\ score c = sum_of pointsAwarded (all_checks c)
            /\ exit_code c = (if 24 <=? score c then 0 else 1)
            /\ verdict (printed c) = (24 <=? score c).
Proof.
  assert (E : exists c, main complete_skill_directory = Ok c)
    by (eexists; vm_compute; reflexivity).
  destruct E as [c E]. exists c. split; [exact E|].
  exact (proj2 (proj2 (exit_code_threshold complete_skill_directory)) c E).
Defined.

(** A permission error on [SKILL.md] is caught: the run goes on with
    no content and the warning. *)
Lemma permission_error_is_caught :
  exists c,
    main (Directory (File (Raise PermissionError)) None None NoFile NoFile)
    = Ok c
    /\ warning c = true /\ length (all_checks c) = 13 /\ exit_code c = 1.
Proof.
  eexists. split; [vm_compute; reflexivity|]. repeat split.
Qed.

(** The failures the script does catch turn into a failing check. *)
Lemma caught_json_errors_fail_check (test : json -> result bool) :
  json_check NoFile test = Ok false
  /\ json_check (File (Raise JSONDecodeError)) test = Ok false
  /\ json_check (File (Raise PermissionError)) test = Ok false.
Proof. repeat split. Qed.

(** C1, where the script falls short.  With a [package.json] that
    holds the JSON value [null], the test for the key [name] raises a
    TypeError that nothing catches: the run stops inside the structure
    checks, so no list of thirteen results comes into being, and the
    process ends with status 1. *)
Theorem null_package_json_yields_no_rows :
  validate_structure null_package_directory = Raise TypeError
  /\ main null_package_directory = Raise TypeError
  /\ (forall c, main null_package_directory <> Ok c)
  /\ exit_status (main null_package_directory) = 1.
Proof.
  split; [reflexivity|]. split; [reflexivity|]. split; [|reflexivity].
  intros c H. discriminate H.
Qed.

(** C2, where the script falls short.  Two failures that nothing
    catches: a [.claude-skill.json] holding the number 42 raises a
    TypeError in the test for the key [name], and a [SKILL.md] that
    cannot be decoded raises a UnicodeDecodeError when it is read.
    Either one ends the run before the report. *)
Theorem uncaught_errors_abort_run :
  main number_skill_json_directory = Raise TypeError
  /\ exit_status (main number_skill_json_directory) = 1
  /\ main undecodable_skill_md_directory = Raise UnicodeDecodeError
  /\ exit_status (main undecodable_skill_md_directory) = 1.
Proof. repeat split. Qed.

(** * Further properties *)

(** ** Rows and points *)

Lemma fold_add_shift (l : list nat) : forall a b,
  fold_left Nat.add l (a + b) = a + fold_left Nat.add l b.
Proof.
  induction l as [|y l IH]; intros a b; cbn [fold_left]; [reflexivity|].
  now rewrite <- Nat.add_assoc, IH.
Qed.

Lemma sum_of_cons (f : CheckResult -> nat) (c : CheckResult)
      (checks : list CheckResult) :
  sum_of f (c :: checks) = f c + sum_of f checks.
Proof.
  rewrite !sum_of_map. cbn [map fold_left].
  rewrite (Nat.add_comm 0 (f c)). apply fold_add_shift.
Qed.

Lemma sum_of_app (f : CheckResult -> nat) (a b : list CheckResult) :
  sum_of f (a ++ b) = sum_of f a + sum_of f b.
Proof.
  induction a as [|c a IH]; [reflexivity|].
  cbn [app]. rewrite !sum_of_cons, IH. lia.
Qed.

(** Rows that give all or nothing give at most what they can, and
    give it all exactly when every row passed. *)
Lemma all_or_nothing_sum (checks : list CheckResult) :
  Forall all_or_nothing checks ->
  Forall (fun c => 0 < pointsMax c) checks ->
  sum_of pointsAwarded checks <= sum_of pointsMax checks
  /\ (sum_of pointsAwarded checks = sum_of pointsMax checks
      <-> forallb passed checks = true).
Proof.
  induction checks as [|c checks IH]; intros H1 H2.
  - split; [reflexivity | split; reflexivity].
  - inversion H1 as [|? ? Hc H1']; inversion H2 as [|? ? Hp H2']; subst.
    destruct (IH H1' H2') as [Hle Hiff].
    rewrite !sum_of_cons. cbn [forallb]. unfold all_or_nothing in Hc.
    rewrite Hc. destruct (passed c); cbn [andb].
    + split; [lia|]. rewrite <- Hiff. split; lia.
    + split; [lia|]. split; [lia | discriminate].
Qed.

Lemma positive_maxima (checks : list CheckResult) (maxima : list nat) :
  map pointsMax checks = maxima ->
  Forall (fun n => 0 < n) maxima ->
  Forall (fun c => 0 < pointsMax c) checks.
Proof.
  intros <- H. rewrite Forall_map in H. exact H.
Qed.

Lemma critical_all_or_nothing (skill_path : directory)
      (content : option text) :
  Forall all_or_nothing (validate_critical skill_path content).
Proof.
  unfold validate_critical.
  destruct content as [[|c content]|].
  - repeat constructor.
  - destruct (parse_frontmatter (c :: content)) as [[data body] error].
    repeat constructor.
  - repeat constructor.
Qed.

Lemma quality_all_or_nothing (body description : text) :
  Forall all_or_nothing (validate_quality body description).
Proof.
  unfold validate_quality.
  repeat constructor.
Qed.

Lemma structure_all_or_nothing (skill_path : directory)
      (checks : list CheckResult) :
  validate_structure skill_path = Ok checks ->
  Forall all_or_nothing checks.
Proof.
  unfold validate_structure.
  destruct (json_check (claude_skill_json skill_path) (py_in (lit "name")));
    cbn [bind]; [|intros [=]].
  destruct (json_check (package_json skill_path) name_and_version);
    cbn [bind]; [|intros [=]].
  intros [= <-].
  repeat constructor.
Qed.

(** What a run that reaches its end is made of. *)
Lemma main_parts (skill_path : directory) (c : completed) :
  main skill_path = Ok c ->
  exists content warned body description structure,
    read_skill (skill_md skill_path) = Ok (content, warned)
    /\ quality_inputs content = (body, description)
    /\ validate_structure skill_path = Ok structure
    /\ all_checks c = validate_critical skill_path content
                      ++ structure ++ validate_quality body description
    /\ warning c = warned
    /\ score c = sum_of pointsAwarded (all_checks c)
    /\ max_score c = sum_of pointsMax (all_checks c)
    /\ exit_code c = (if PASS_THRESHOLD <=? score c then 0 else 1).
Proof.
  unfold main.
  destruct (read_skill (skill_md skill_path)) as [[content warned]|e] eqn:Er;
    cbn [bind]; [|intros [=]].
  destruct (quality_inputs content) as [body description] eqn:Eq.
  destruct (validate_structure skill_path) as [structure|e] eqn:Es;
    cbn [bind]; [|intros [=]].
  intros [= <-]. exists content, warned, body, description, structure.
  repeat (split; [reflexivity || assumption|]). reflexivity.
Qed.

Lemma tier_bound (checks : list CheckResult) (maxima : list nat) :
  Forall all_or_nothing checks ->
  map pointsMax checks = maxima ->
  sum_of pointsAwarded checks <= fold_left Nat.add maxima 0.
Proof.
  intros H <-. rewrite <- sum_of_map.
  induction checks as [|c checks IH]; [reflexivity|].
  inversion H as [|? ? Hc H']; subst. rewrite !sum_of_cons.
  specialize (IH H'). unfold all_or_nothing in Hc. rewrite Hc.
  destruct (passed c); lia.
Qed.

(** X2.  In a run that reaches its end every row gives all of its
    points or none, the tiers give at most 15, 7 and 7 points, the
    score is at most 29, and it is 29 exactly when all thirteen rows
    passed. *)
Theorem score_is_sum_of_passed_rows (skill_path : directory) (c : completed) :
  main skill_path = Ok c ->
  Forall all_or_nothing (all_checks c)
  /\ sum_of pointsAwarded (firstn 5 (all_checks c)) <= 15
  /\ sum_of pointsAwarded (firstn 4 (skipn 5 (all_checks c))) <= 7
  /\ sum_of pointsAwarded (skipn 9 (all_checks c)) <= 7
  /\ score c <= 29
  /\ (score c = 29 <-> forallb passed (all_checks c) = true).
Proof.
  intros H.
  destruct (main_parts _ _ H)
    as [content [warned [body [description [structure
       [_ [_ [Hs [Hall [_ [Hscore _]]]]]]]]]]].
  pose proof (critical_all_or_nothing skill_path content) as Ac.
  pose proof (structure_all_or_nothing _ _ Hs) as As.
  pose proof (quality_all_or_nothing body description) as Aq.
  pose proof (critical_shape skill_path content) as Mc.
  pose proof (structure_shape _ _ Hs) as Ms.
  pose proof (quality_shape body description) as Mq.
  set (critical := validate_critical skill_path content) in *.
  set (quality := validate_quality body description) in *.
  assert (Lc : length critical = 5)
    by (rewrite <- (length_map pointsMax), Mc; reflexivity).
  assert (Ls : length structure = 4)
    by (rewrite <- (length_map pointsMax), Ms; reflexivity).
  assert (A : Forall all_or_nothing (all_checks c)).
  { rewrite Hall. apply Forall_app. split; [exact Ac|].
    apply Forall_app. split; assumption. }
  assert (F1 : firstn 5 (all_checks c) = critical)
    by (rewrite Hall, <- Lc; apply firstn_length_app).
  assert (F2 : skipn 5 (all_checks c) = structure ++ quality)
    by (rewrite Hall, <- Lc; apply skipn_length_app).
  assert (F3 : skipn 9 (all_checks c) = quality).
  { rewrite Hall, app_assoc.
    replace 9 with (length (critical ++ structure))
      by (rewrite length_app, Lc, Ls; reflexivity).
    apply skipn_length_app. }
  assert (F4 : firstn 4 (structure ++ quality) = structure)
    by (rewrite <- Ls; apply firstn_length_app).
  rewrite F1, F2, F3, F4.
  pose proof (tier_bound _ _ Ac Mc) as Bc.
  pose proof (tier_bound _ _ As Ms) as Bs.
  pose proof (tier_bound _ _ Aq Mq) as Bq.
  cbn [fold_left Nat.add] in Bc, Bs, Bq.
  assert (P : Forall (fun r => 0 < pointsMax r) (all_checks c)).
  { apply (positive_maxima _ [3; 3; 3; 3; 3; 2; 2; 2; 1; 2; 2; 2; 1]).
    - now rewrite Hall, !map_app, Mc, Ms, Mq.
    - repeat constructor. }
  destruct (all_or_nothing_sum _ A P) as [_ Hiff].
  assert (Smax : sum_of pointsMax (all_checks c) = 29)
    by (rewrite sum_of_map, Hall, !map_app, Mc, Ms, Mq; reflexivity).
  rewrite Smax in Hiff. rewrite <- Hscore in Hiff.
  repeat split; try assumption; try apply Hiff.
  rewrite Hscore, Hall, !sum_of_app. lia.
Qed.

Lemma score_is_sum_of_passed_rows_witness :
  exists c, main complete_skill_directory = Ok c
            /\ score c <= 29
            /\ (score c = 29 <-> forallb passed (all_checks c) = true).
Proof.
  assert (E : exists c, main complete_skill_directory = Ok c)
    by (eexists; vm_compute; reflexivity).
  destruct E as [c E]. exists c. split; [exact E|].
  exact (proj2 (proj2 (proj2 (proj2
           (score_is_sum_of_passed_rows complete_skill_directory c E))))).
Defined.

Lemma rows_by_tier (critical structure quality : list CheckResult) :
  length critical = 5 -> length structure = 4 ->
  firstn 5 (critical ++ structure ++ quality) = critical
  /\ firstn 4 (skipn 5 (critical ++ structure ++ quality)) = structure
  /\ skipn 9 (critical ++ structure ++ quality) = quality.
Proof.
  intros Lc Ls. split; [|split].
  - rewrite <- Lc. apply firstn_length_app.
  - rewrite <- Lc, skipn_length_app, <- Ls. apply firstn_length_app.
  - rewrite app_assoc.
    replace 9 with (length (critical ++ structure))
      by (rewrite length_app, Lc, Ls; reflexivity).
    apply skipn_length_app.
Qed.

Lemma critical_length (skill_path : directory) (content : option text) :
  length (validate_critical skill_path content) = 5.
Proof.
  rewrite <- (length_map pointsMax), critical_shape. reflexivity.
Qed.

Lemma structure_length (skill_path : directory) (checks : list CheckResult) :
  validate_structure skill_path = Ok checks -> length checks = 4.
Proof.
  intros H. rewrite <- (length_map pointsMax), (structure_shape _ _ H).
  reflexivity.
Qed.

(** ** A manifest that gives no content *)

(** X1.  When [SKILL.md] is absent, cannot be opened for lack of
    permission, or is empty, a run that reaches its end fails critical
    checks 2 to 5 (check 1 passes as soon as the file is there), fails
    the quality checks on auto-invocation, keywords and description
    length, still passes the token check on the empty body, scores at
    most 12 and exits with status 1. *)
Theorem manifest_without_content_fails (skill_path : directory)
        (c : completed) :
  main skill_path = Ok c ->
  skill_md skill_path = NoFile
  \/ skill_md skill_path = File (Raise PermissionError)
  \/ skill_md skill_path = File (Ok []) ->
  map passed (firstn 5 (all_checks c))
  = [isfile (skill_md skill_path); false; false; false; false]
  /\ map passed (skipn 9 (all_checks c)) = [false; false; true; false]
  /\ map pointsAwarded (skipn 9 (all_checks c)) = [0; 0; 2; 0]
  /\ score c <= 12
  /\ exit_code c = 1.
Proof.
  intros H Hmd.
  destruct (main_parts _ _ H)
    as [content [warned [body [description [structure
       [Hr [Hq [Hs [Hall [_ [Hscore [_ Hexit]]]]]]]]]]]].
  assert (Hc : content = None \/ content = Some []).
  { destruct Hmd as [E | [E | E]]; rewrite E in Hr; cbn in Hr;
      injection Hr as <- _; auto. }
  assert (Hbd : body = [] /\ description = []).
  { destruct Hc as [-> | ->]; cbn in Hq; injection Hq as <- <-; auto. }
  destruct Hbd as [-> ->].
  destruct (rows_by_tier (validate_critical skill_path content) structure
                         (validate_quality [] [])
                         (critical_length _ _) (structure_length _ _ Hs))
    as [F1 [_ F3]].
  rewrite Hall, F1, F3.
  assert (Hcrit : validate_critical skill_path content
                  = [Check (lit "SKILL.md exists") (isfile (skill_md skill_path))
                           (award (isfile (skill_md skill_path)) 3) 3 [];
                     Check (lit "Valid YAML frontmatter") false 0 3
                           (lit "No content to parse");
                     Check (lit "name field valid") false 0 3 [];
                     Check (lit "description field valid") false 0 3 [];
                     Check (lit "Body non-empty") false 0 3 []])
    by (destruct Hc as [-> | ->]; reflexivity).
  assert (Hsc : score c <= 12).
  { rewrite Hscore, Hall, !sum_of_app.
    pose proof (tier_bound _ _ (structure_all_or_nothing _ _ Hs)
                           (structure_shape _ _ Hs)) as Bs.
    cbn [fold_left Nat.add] in Bs. rewrite Hcrit.
    rewrite !sum_of_cons. cbn [pointsAwarded].
    change (sum_of pointsAwarded []) with 0.
    change (sum_of pointsAwarded (validate_quality [] [])) with 2.
    unfold award. destruct (isfile (skill_md skill_path)); lia. }
  rewrite Hcrit. repeat split; try assumption.
  rewrite Hexit. unfold PASS_THRESHOLD.
  destruct (Nat.leb_spec 24 (score c)); [lia | reflexivity].
Qed.

Lemma manifest_without_content_fails_witness :
  exists c,
    main (Directory NoFile None None NoFile NoFile) = Ok c
    /\ score c <= 12 /\ exit_code c = 1.
Proof.
  assert (E : exists c, main (Directory NoFile None None NoFile NoFile) = Ok c)
    by (eexists; vm_compute; reflexivity).
  destruct E as [c E]. exists c. split; [exact E|].
  exact (proj2 (proj2 (proj2
           (manifest_without_content_fails _ c E (or_introl eq_refl))))).
Defined.

(** ** What a passing run needs *)

Lemma read_skill_content (f : file text) (doc : text) (warned : bool) :
  read_skill f = Ok (Some doc, warned) -> f = File (Ok doc).
Proof.
  destruct f as [|[content|[]]]; cbn; intros [=]; congruence.
Qed.

Lemma parse_error_iff (content : text) :
  forall data body error,
    parse_frontmatter content = (data, body, error) ->
    (data = None /\ body = content /\ error = Some NO_FRONTMATTER)
    \/ (exists d, data = Some d /\ error = None).
Proof.
  intros data body error. unfold parse_frontmatter.
  destruct (Re.rmatch dotall FRONTMATTER_RE content); intros [= <- <- <-].
  - right. eexists. split; reflexivity.
  - left. repeat split.
Qed.

Lemma sum_of_threes (checks : list CheckResult) :
  Forall all_or_nothing checks ->
  Forall (fun c => pointsMax c = 3) checks ->
  sum_of pointsAwarded checks = 3 * length (filter passed checks).
Proof.
  induction checks as [|c checks IH]; intros H1 H2; [reflexivity|].
  inversion H1 as [|? ? Hc H1']; inversion H2 as [|? ? Hm H2']; subst.
  rewrite sum_of_cons, (IH H1' H2'). unfold all_or_nothing in Hc.
  rewrite Hc, Hm. cbn [filter]. destruct (passed c); cbn [length]; lia.
Qed.

Lemma critical_without_content (skill_path : directory)
      (content : option text) :
  content = None \/ content = Some [] ->
  sum_of pointsAwarded (validate_critical skill_path content) <= 3.
Proof.
  intros [-> | ->]; cbn [validate_critical];
    rewrite !sum_of_cons; cbn [pointsAwarded];
    change (sum_of pointsAwarded []) with 0; unfold award;
    destruct (isfile (skill_md skill_path)); lia.
Qed.

(** X4.  A run can only exit with status 0 when [SKILL.md] was read,
    is not empty and begins with a front-matter block, and when at
    least four of the five critical checks passed: the structure and
    quality tiers together give 14 points at most. *)
Theorem passing_needs_front_matter (skill_path : directory) (c : completed) :
  main skill_path = Ok c ->
  exit_code c = 0 ->
  (exists doc data body,
      skill_md skill_path = File (Ok doc)
      /\ doc <> []
      /\ parse_frontmatter doc = (Some data, body, None))
  /\ 4 <= length (filter passed (firstn 5 (all_checks c)))
  /\ passed (check_at 0 (all_checks c)) = true
  /\ passed (check_at 1 (all_checks c)) = true.
Proof.
  intros H Hexit.
  destruct (main_parts _ _ H)
    as [content [warned [body [description [structure
       [Hr [_ [Hs [Hall [_ [Hscore [_ Hx]]]]]]]]]]]].
  rewrite Hexit in Hx. unfold PASS_THRESHOLD in Hx.
  assert (Hpass : 24 <= score c)
    by (destruct (Nat.leb_spec 24 (score c)); [assumption | discriminate]).
  clear Hx.
  pose proof (tier_bound _ _ (structure_all_or_nothing _ _ Hs)
                         (structure_shape _ _ Hs)) as Bs.
  pose proof (tier_bound _ _ (quality_all_or_nothing body description)
                         (quality_shape body description)) as Bq.
  cbn [fold_left Nat.add] in Bs, Bq.
  rewrite Hscore, Hall, !sum_of_app in Hpass.
  assert (Hcrit : 10 <= sum_of pointsAwarded
                          (validate_critical skill_path content)) by lia.
  clear Hpass Bs Bq.
  destruct (rows_by_tier (validate_critical skill_path content) structure
                         (validate_quality body description)
                         (critical_length _ _) (structure_length _ _ Hs))
    as [F1 _].
  assert (Hfour : 4 <= length (filter passed
                                      (validate_critical skill_path content))).
  { rewrite sum_of_threes in Hcrit.
    - lia.
    - apply critical_all_or_nothing.
    - pose proof (critical_shape skill_path content) as M.
      revert M. generalize (validate_critical skill_path content) as l.
      intros l M.
      repeat (destruct l as [|? l]; [discriminate M|]).
      destruct l; [|discriminate M].
      injection M as M1 M2 M3 M4 M5. repeat constructor; assumption. }
  unfold check_at. rewrite Hall, F1.
  rewrite !app_nth1 by (rewrite critical_length; lia).
  destruct content as [[|x doc]|].
  - exfalso.
    pose proof (critical_without_content skill_path (Some [])
                                         (or_intror eq_refl)) as B.
    apply (Nat.le_trans _ _ _ Hcrit) in B. lia.
  - apply read_skill_content in Hr.
    revert Hcrit Hfour. unfold validate_critical.
    destruct (parse_frontmatter (x :: doc)) as [[data pbody] error] eqn:Ep.
    destruct (parse_error_iff _ _ _ _ Ep) as [[-> [-> ->]] | [d [-> ->]]].
    + intros Hcrit _. exfalso. cbn [get_or_empty truthy andb award] in Hcrit.
      rewrite !sum_of_cons in Hcrit. cbn [pointsAwarded] in Hcrit.
      change (sum_of pointsAwarded []) with 0 in Hcrit.
      revert Hcrit. unfold award.
      destruct (isfile (skill_md skill_path)),
               (truthy (Py.strip (x :: doc))); lia.
    + intros _ Hfour. split; [|split; [exact Hfour|]].
      * exists (x :: doc), d, pbody. repeat split; try assumption.
        discriminate.
      * rewrite Hr. split; reflexivity.
  - exfalso.
    pose proof (critical_without_content skill_path None
                                         (or_introl eq_refl)) as B.
    apply (Nat.le_trans _ _ _ Hcrit) in B. lia.
Qed.

Lemma passing_needs_front_matter_witness :
  exists c,
    main complete_skill_directory = Ok c
    /\ 4 <= length (filter passed (firstn 5 (all_checks c))).
Proof.
  assert (E : exists c, main complete_skill_directory = Ok c
                        /\ exit_code c = 0)
    by (eexists; split; vm_compute; reflexivity).
  destruct E as [c [E X]]. exists c. split; [exact E|].
  exact (proj1 (proj2 (passing_needs_front_matter _ c E X))).
Defined.

(** ** The report *)

(** X10.  Whatever rows [print_results] is given, its three tiers are
    CRITICAL, STRUCTURE and QUALITY in this order, and laid end to end
    they are the rows it was given: no row is shown twice or left out.
    The tiers take the first five rows, the next four and all the
    rest, and the verdict is PASS exactly from 24 points on. *)
Theorem report_shows_every_row_once (rows : list CheckResult)
        (points maximum : nat) :
  let r := print_results rows points maximum in
  map fst (tiers r) = [lit "CRITICAL"; lit "STRUCTURE"; lit "QUALITY"]
  /\ concat (map snd (tiers r)) = rows
  /\ map (fun t => length (snd t)) (tiers r)
     = [Nat.min 5 (length rows); Nat.min 4 (length rows - 5);
        length rows - 9]
  /\ shown_score r = points
  /\ shown_max r = maximum
  /\ (verdict r = true <-> 24 <= points).
Proof.
  cbv zeta. unfold print_results. cbn [tiers shown_score shown_max verdict].
  repeat split.
  - cbn [map snd concat]. rewrite app_nil_r.
    change 9 with (4 + 5). rewrite <- skipn_skipn.
    now rewrite (firstn_skipn 4 (skipn 5 rows)), firstn_skipn.
  - cbn [map snd]. now rewrite !length_firstn, !length_skipn.
  - apply Nat.leb_le.
  - apply Nat.leb_le.
Qed.

(** ** The structure checks *)

Lemma endswith_spec (p s : text) :
  Py.endswith p s = true <-> exists stem, s = stem ++ p.
Proof.
  unfold Py.endswith. rewrite startswith_spec. split.
  - intros [after H]. exists (rev after).
    rewrite <- (rev_involutive s), H, rev_app_distr.
    now rewrite rev_involutive.
  - intros [stem ->]. exists (rev stem). apply rev_app_distr.
Qed.

Lemma count_md_walked (dir : option (list (list text))) :
  count_md dir
  = length (filter (Py.endswith (lit ".md")) (walked_files dir)).
Proof.
  destruct dir as [walk|]; [|reflexivity]. cbn [count_md walked_files].
  assert (G : forall n,
             fold_left (fun acc files =>
                          acc + length (filter (Py.endswith (lit ".md")) files))
                       walk n
             = n + length (filter (Py.endswith (lit ".md")) (concat walk))).
  { induction walk as [|files walk IH]; intros n; cbn [fold_left concat].
    - cbn. lia.
    - rewrite IH, filter_app, length_app. lia. }
  apply G.
Qed.

Lemma count_md_positive (dir : option (list (list text))) :
  (0 <? count_md dir) = true
  <-> exists stem, In (stem ++ lit ".md") (walked_files dir).
Proof.
  rewrite count_md_walked, Nat.ltb_lt. split.
  - intros H.
    destruct (filter (Py.endswith (lit ".md")) (walked_files dir))
      as [|f fs] eqn:E; [cbn in H; lia|].
    assert (Hin : In f (filter (Py.endswith (lit ".md")) (walked_files dir)))
      by (rewrite E; now left).
    apply filter_In in Hin as [Hin Hf].
    apply endswith_spec in Hf as [stem ->]. now exists stem.
  - intros [stem Hin].
    assert (Hf : In (stem ++ lit ".md")
                    (filter (Py.endswith (lit ".md")) (walked_files dir))).
    { apply filter_In. split; [exact Hin|].
      apply endswith_spec. now exists stem. }
    destruct (filter (Py.endswith (lit ".md")) (walked_files dir));
      [destruct Hf | cbn; lia].
Qed.

(** X9.  The first two structure checks pass exactly when [os.walk]
    meets, at any depth, a file whose name ends in [.md] under
    [references/], respectively [commands/]; a directory that is not
    there counts as having none.  When a check passes, its label shows
    how many such files there are. *)
Theorem markdown_files_are_counted (skill_path : directory)
        (checks : list CheckResult) :
  validate_structure skill_path = Ok checks ->
  let refs := walked_files (references skill_path) in
  let cmds := walked_files (commands skill_path) in
  let md := filter (Py.endswith (lit ".md")) in
  (passed (check_at 0 checks) = true
   <-> exists stem, In (stem ++ lit ".md") refs)
  /\ (passed (check_at 1 checks) = true
      <-> exists stem, In (stem ++ lit ".md") cmds)
  /\ (passed (check_at 0 checks) = true ->
      label (check_at 0 checks)
      = lit "references/ exists (" ++ Py.str_of_nat (length (md refs))
        ++ lit " files)")
  /\ (passed (check_at 1 checks) = true ->
      label (check_at 1 checks)
      = lit "commands/ exists (" ++ Py.str_of_nat (length (md cmds))
        ++ lit " files)")
  /\ (passed (check_at 0 checks) = false ->
      label (check_at 0 checks) = lit "references/ exists")
  /\ (passed (check_at 1 checks) = false ->
      label (check_at 1 checks) = lit "commands/ exists").
Proof.
  unfold validate_structure.
  destruct (json_check (claude_skill_json skill_path) (py_in (lit "name")));
    cbn [bind]; [|intros [=]].
  destruct (json_check (package_json skill_path) name_and_version);
    cbn [bind]; [|intros [=]].
  intros [= <-]. cbv zeta. unfold check_at. cbn [nth passed label].
  rewrite <- !count_md_walked.
  split; [apply count_md_positive|]. split; [apply count_md_positive|].
  unfold files_detail.
  repeat split; intros ->; cbn [app]; try reflexivity;
    now rewrite app_nil_r.
Qed.

Lemma markdown_files_are_counted_witness :
  exists checks,
    validate_structure complete_skill_directory = Ok checks
    /\ (passed (check_at 1 checks) = true
        <-> exists stem,
              In (stem ++ lit ".md")
                 (walked_files (commands complete_skill_directory))).
Proof.
  assert (E : exists checks,
             validate_structure complete_skill_directory = Ok checks)
    by (eexists; vm_compute; reflexivity).
  destruct E as [checks E]. exists checks. split; [exact E|].
  exact (proj1 (proj2 (markdown_files_are_counted _ checks E))).
Defined.

Lemma text_eqb_eq (a b : text) : text_eqb a b = true <-> a = b.
Proof.
  unfold text_eqb. destruct (list_eq_dec ascii_dec a b); split;
    congruence.
Qed.

Lemma has_key (key : text) (members : list (text * json)) :
  py_in key (JObject members) = Ok true
  <-> In key (map fst members).
Proof.
  cbn [py_in]. split.
  - intros [= H]. apply existsb_exists in H as [[k v] [Hin Hk]].
    apply text_eqb_eq in Hk. cbn [fst] in Hk. subst k.
    apply in_map_iff. now exists (key, v).
  - intros H. apply in_map_iff in H as [[k v] [Hk Hin]]. cbn [fst] in Hk.
    subst k. f_equal. apply existsb_exists. exists (key, v).
    split; [exact Hin|]. now apply text_eqb_eq.
Qed.

Lemma py_in_object_bool (key : text) (members : list (text * json)) :
  exists b, py_in key (JObject members) = Ok b
            /\ (b = true <-> In key (map fst members)).
Proof.
  destruct (py_in key (JObject members)) as [b|e] eqn:E; [|discriminate E].
  exists b. split; [reflexivity|]. rewrite <- has_key, E.
  split; [now intros -> | now intros [= ->]].
Qed.

(** X12.  When the two JSON files hold objects, the structure checks
    reach their end, [.claude-skill.json] passes exactly when the
    object has a key [name], and [package.json] passes exactly when it
    has the keys [name] and [version]; what the keys are bound to plays
    no part. *)
Theorem json_objects_are_judged_by_keys (skill_path : directory)
        (skill_members package_members : list (text * json)) :
  claude_skill_json skill_path = File (Ok (JObject skill_members)) ->
  package_json skill_path = File (Ok (JObject package_members)) ->
  exists checks,
    validate_structure skill_path = Ok checks
    /\ (passed (check_at 2 checks) = true
        <-> In (lit "name") (map fst skill_members))
    /\ (passed (check_at 3 checks) = true
        <-> In (lit "name") (map fst package_members)
            /\ In (lit "version") (map fst package_members))
    /\ pointsAwarded (check_at 2 checks)
       = (if passed (check_at 2 checks) then 2 else 0)
    /\ pointsAwarded (check_at 3 checks)
       = (if passed (check_at 3 checks) then 1 else 0).
Proof.
  intros H1 H2. unfold validate_structure, json_check. rewrite H1, H2.
  cbn [bind].
  destruct (py_in_object_bool (lit "name") skill_members) as [b1 [-> Hb1]].
  cbn [try_json bind]. unfold name_and_version.
  destruct (py_in_object_bool (lit "name") package_members) as [b2 [-> Hb2]].
  destruct (py_in_object_bool (lit "version") package_members)
    as [b3 [E3 Hb3]].
  cbn [bind]. destruct b2.
  - rewrite E3. cbn [try_json bind]. eexists. split; [reflexivity|].
    unfold check_at. cbn [nth passed pointsAwarded].
    repeat split; tauto.
  - cbn [try_json bind]. eexists. split; [reflexivity|].
    unfold check_at. cbn [nth passed pointsAwarded].
    repeat split; try tauto; try discriminate.
Qed.

Lemma json_objects_are_judged_by_keys_witness :
  exists checks,
    validate_structure complete_skill_directory = Ok checks
    /\ (passed (check_at 3 checks) = true
        <-> In (lit "name")
               (map fst [(lit "name", JString (lit "my-skill"));
                         (lit "version", JString (lit "1.0.0"))])
            /\ In (lit "version")
                  (map fst [(lit "name", JString (lit "my-skill"));
                            (lit "version", JString (lit "1.0.0"))])).
Proof.
  destruct (json_objects_are_judged_by_keys
              complete_skill_directory _ _ eq_refl eq_refl)
    as [checks [E [_ [H _]]]].
  exists checks. split; [exact E | exact H].
Defined.

(** ** The body and the description *)

Lemma lstrip_keeps_visible (p : ascii -> bool) (s : text) (c : ascii) :
  p c = false -> Py.lstrip_by p (s ++ [c]) <> [].
Proof.
  intros Hc. induction s as [|x s IH]; cbn [app Py.lstrip_by].
  - rewrite Hc. discriminate.
  - destruct (p x); [exact IH | discriminate].
Qed.

Lemma lstrip_all_spaces (s : text) :
  has_visible s = false -> Py.lstrip_by Py.isspace s = [].
Proof.
  unfold has_visible. induction s as [|x s IH]; [reflexivity|].
  cbn [existsb Py.lstrip_by]. destruct (Py.isspace x); [exact IH|].
  discriminate.
Qed.

(** The stripped text is not empty exactly when the text has a
    character that is not white space. *)
Lemma strip_truthy (s : text) : truthy (Py.strip s) = has_visible s.
Proof.
  destruct (has_visible s) eqn:E.
  - destruct (has_visible_split s E) as [ws [c [tl [-> [Hws Hc]]]]].
    rewrite strip_leading_spaces by assumption.
    unfold Py.strip, Py.strip_by, Py.rstrip_by.
    cbn [Py.lstrip_by]. rewrite Hc. cbn [rev].
    pose proof (lstrip_keeps_visible Py.isspace (rev tl) c Hc) as H.
    destruct (Py.lstrip_by Py.isspace (rev tl ++ [c])) as [|y l];
      [contradiction|].
    cbn [rev]. destruct (rev l); reflexivity.
  - unfold Py.strip, Py.strip_by. now rewrite (lstrip_all_spaces s E).
Qed.

Lemma has_visible_truthy (s : text) : has_visible s = true -> truthy s = true.
Proof. destruct s; [discriminate | reflexivity]. Qed.

(** X8.  Critical check 5 passes exactly when the body that
    [parse_frontmatter] returns has a character that is not white
    space; without front matter that body is the whole document.  A
    document that is nothing but front matter and white space fails
    it. *)
Theorem body_check_wants_visible_text (skill_path : directory)
        (content : option text) :
  passed (check_at 4 (validate_critical skill_path content))
  = match content with
    | Some doc => has_visible (snd (fst (parse_frontmatter doc)))
    | None => false
    end
  /\ (forall doc,
        fst (fst (parse_frontmatter doc)) = None ->
        snd (fst (parse_frontmatter doc)) = doc).
Proof.
  split.
  - destruct content as [[|x doc]|]; [reflexivity | | reflexivity].
    unfold validate_critical.
    destruct (parse_frontmatter (x :: doc)) as [[data body] error] eqn:E.
    unfold check_at. cbn [nth passed fst snd].
    destruct (parse_error_iff _ _ _ _ E) as [[-> [-> _]] | [d [-> _]]].
    + rewrite strip_truthy.
      destruct (has_visible (x :: doc)); reflexivity.
    + rewrite strip_truthy.
      destruct (has_visible body) eqn:V; [|apply andb_false_r].
      now rewrite (has_visible_truthy body V).
  - intros doc. unfold parse_frontmatter.
    destruct (Re.rmatch dotall FRONTMATTER_RE doc); [discriminate|].
    reflexivity.
Qed.

Lemma body_check_wants_visible_text_witness :
  snd (fst (parse_frontmatter (lit "no front matter"))) = lit "no front matter".
Proof.
  exact (proj2 (body_check_wants_visible_text
                  (Directory NoFile None None NoFile NoFile) None)
               (lit "no front matter") eq_refl).
Defined.

Lemma truthy_length (s : text) : truthy s = (0 <? length s).
Proof. destruct s; reflexivity. Qed.

Lemma quality_inputs_parsed (doc body : text) (data : frontmatter) :
  parse_frontmatter doc = (Some data, body, None) ->
  quality_inputs (Some doc) = (body, get_or_empty (fm_description data)).
Proof.
  intros H. destruct doc as [|x doc]; [discriminate H|].
  unfold quality_inputs. rewrite H.
  destruct data as [[name|] [description|]]; reflexivity.
Qed.

(** X11.  The description that the front matter yields is judged
    twice in a run, by critical check 4 and by quality check 4, and by
    its length alone: the first wants 1 to 1024 characters, the second
    more than 50, so both pass exactly from 51 to 1024 characters.  A
    description that is absent counts as empty. *)
Theorem description_length_window (skill_path : directory) (c : completed)
        (doc body : text) (data : frontmatter) :
  main skill_path = Ok c ->
  skill_md skill_path = File (Ok doc) ->
  parse_frontmatter doc = (Some data, body, None) ->
  let n := length (get_or_empty (fm_description data)) in
  passed (check_at 3 (all_checks c)) = ((0 <? n) && (n <=? 1024))
  /\ passed (check_at 12 (all_checks c)) = (50 <? n)
  /\ (passed (check_at 3 (all_checks c)) = true
      /\ passed (check_at 12 (all_checks c)) = true
      <-> 51 <= n <= 1024).
Proof.
  intros H Hmd Hp n.
  destruct (main_parts _ _ H)
    as [content [warned [qbody [description [structure
       [Hr [Hq [Hs [Hall _]]]]]]]]].
  rewrite Hmd in Hr. cbn in Hr. injection Hr as <- _.
  rewrite (quality_inputs_parsed _ _ _ Hp) in Hq. injection Hq as <- <-.
  assert (E3 : passed (check_at 3 (all_checks c))
               = ((0 <? n) && (n <=? 1024))).
  { unfold check_at. rewrite Hall, app_nth1 by (rewrite critical_length; lia).
    destruct doc as [|x doc]; [discriminate Hp|].
    unfold validate_critical. rewrite Hp. cbn [nth passed].
    now rewrite truthy_length. }
  assert (E12 : passed (check_at 12 (all_checks c)) = (50 <? n)).
  { unfold check_at.
    rewrite Hall, app_nth2 by (rewrite critical_length; lia).
    rewrite critical_length.
    rewrite app_nth2 by (rewrite (structure_length _ _ Hs); lia).
    rewrite (structure_length _ _ Hs). reflexivity. }
  split; [exact E3|]. split; [exact E12|].
  rewrite E3, E12, andb_true_iff, !Nat.ltb_lt, Nat.leb_le. lia.
Qed.

Lemma description_length_window_witness :
  exists c,
    main complete_skill_directory = Ok c
    /\ passed (check_at 3 (all_checks c)) = true
    /\ passed (check_at 12 (all_checks c)) = true.
Proof.
  assert (E : exists c, main complete_skill_directory = Ok c)
    by (eexists; vm_compute; reflexivity).
  destruct E as [c E].
  assert (P : exists data body,
             parse_frontmatter complete_manifest = (Some data, body, None))
    by (eexists; eexists; vm_compute; reflexivity).
  destruct P as [data [body P]].
  destruct (description_length_window complete_skill_directory c
              complete_manifest body data E eq_refl P) as [H3 [H12 _]].
  exists c. split; [exact E|].
  revert H3 H12. revert P. vm_compute. intros [= <- <-].
  intros -> ->. split; reflexivity.
Defined.

(** ** The shape of a document with front matter *)

Lemma lits_match_split (fl : Re.flags) (w : string) (rs : text) :
  Re.IGNORECASE fl = false ->
  lits_match fl (lit w) rs = true ->
  exists after, rs = lit w ++ after
                /\ skipn (length (lit w)) rs = after.
Proof.
  intros Hfl H. rewrite lits_match_exact in H by assumption.
  apply startswith_spec in H as [after ->]. exists after.
  split; [reflexivity | apply skipn_length_app].
Qed.

Lemma lit_newline_matches (fl : Re.flags) (x : ascii) :
  Re.IGNORECASE fl = false ->
  Re.lit_matches fl newline x = true -> x = newline.
Proof.
  unfold Re.lit_matches. intros ->. apply Ascii.eqb_eq.
Qed.

(** Every match of the front-matter pattern at the start of a document
    reads three hyphens, white space, a newline, the block, a newline,
    three hyphens, white space and a newline, and holds the block in
    group 1. *)
Lemma frontmatter_match_shape (content : text) (m : Re.cursor) :
  In m (Re.run dotall FRONTMATTER_RE (Re.start content)) ->
  exists ws1 fm ws2,
    content = lit "---" ++ ws1 ++ newline :: fm ++ newline
              :: lit "---" ++ ws2 ++ newline :: Re.rest m
    /\ forallb Py.isspace ws1 = true
    /\ forallb Py.isspace ws2 = true
    /\ Re.group1 m = Some fm.
Proof.
  unfold FRONTMATTER_RE, Re.start. cbn [Re.Seq].
  rewrite run_bol_cat. cbn [Re.at_bol Re.seen].
  rewrite run_word_cat.
  destruct (lits_match dotall (lit "---") content) eqn:E1; [|intros []].
  apply lits_match_split in E1 as [c1 [-> ->]]; [|reflexivity].
  rewrite run_cat, in_flat_map. intros [s2 [H2 Hm]].
  apply (run_star_sound _ _ _ (single_space dotall)) in H2
    as [ws1 [Hws1 [-> [_ G2]]]].
  destruct s2 as [sn2 rs2 g2]. cbn [Re.rest Re.group1] in *. subst g2.
  rewrite (run_single_cat _ _ _ _ _ _ _ (single_lit dotall newline)) in Hm.
  destruct rs2 as [|x1 r3]; [destruct Hm|].
  destruct (Re.lit_matches dotall newline x1) eqn:X1; [|destruct Hm].
  apply lit_newline_matches in X1; [subst x1 | reflexivity].
  rewrite run_cat, in_flat_map in Hm. destruct Hm as [s4 [H4 Hm]].
  change (Re.run dotall (Re.Group (Re.Star false Re.Dot)) ?s)
    with (map (Re.capture s) (Re.run dotall (Re.Star false Re.Dot) s)) in H4.
  apply in_map_iff in H4 as [s4' [<- H4]].
  apply (run_star_sound _ _ _ (single_dot dotall)) in H4
    as [fm [_ [E3 _]]].
  destruct s4' as [sn4 rs4 g4]. cbn [Re.rest] in E3. subst r3.
  unfold Re.capture in Hm. cbn [Re.rest Re.seen] in Hm.
  rewrite length_app, Nat.add_sub, firstn_length_app in Hm.
  rewrite (run_single_cat _ _ _ _ _ _ _ (single_lit dotall newline)) in Hm.
  destruct rs4 as [|x2 r5]; [destruct Hm|].
  destruct (Re.lit_matches dotall newline x2) eqn:X2; [|destruct Hm].
  apply lit_newline_matches in X2; [subst x2 | reflexivity].
  rewrite run_word_cat in Hm.
  destruct (lits_match dotall (lit "---") r5) eqn:E5; [|destruct Hm].
  apply lits_match_split in E5 as [c6 [-> E6]]; [|reflexivity].
  rewrite E6 in Hm. clear E6.
  rewrite run_cat, in_flat_map in Hm. destruct Hm as [s7 [H7 Hm]].
  apply (run_star_sound _ _ _ (single_space dotall)) in H7
    as [ws2 [Hws2 [-> [_ G7]]]].
  destruct s7 as [sn7 rs7 g7]. cbn [Re.rest Re.group1] in *. subst g7.
  rewrite (run_single_cat _ _ _ _ _ _ _ (single_lit dotall newline)) in Hm.
  destruct rs7 as [|x3 r8]; [destruct Hm|].
  destruct (Re.lit_matches dotall newline x3) eqn:X3; [|destruct Hm].
  apply lit_newline_matches in X3; [subst x3 | reflexivity].
  cbn [Re.run] in Hm. destruct Hm as [<- | []].
  exists ws1, fm, ws2. cbn [Re.rest Re.group1].
  repeat split; assumption || reflexivity.
Qed.

(** A document in which [parse_frontmatter] finds front matter, taken
    apart. *)
Lemma parsed_document_shape (content body : text) (data : frontmatter) :
  parse_frontmatter content = (Some data, body, None) ->
  exists ws1 block ws2,
    content = lit "---" ++ ws1 ++ newline :: block ++ newline
              :: lit "---" ++ ws2 ++ newline :: body
    /\ forallb Py.isspace ws1 = true
    /\ forallb Py.isspace ws2 = true
    /\ data = FrontMatter (extract_name block) (extract_description block)
    /\ length body + 9 <= length content.
Proof.
  unfold parse_frontmatter.
  destruct (Re.rmatch dotall FRONTMATTER_RE content) as [m|] eqn:E;
    [|discriminate].
  intros [= <- <-].
  assert (Hin : In m (Re.run dotall FRONTMATTER_RE (Re.start content))).
  { unfold Re.rmatch in E.
    destruct (Re.run dotall FRONTMATTER_RE (Re.start content));
      [discriminate|]. injection E as ->. now left. }
  destruct (frontmatter_match_shape content m Hin)
    as [ws1 [fm [ws2 [Hc [H1 [H2 Hg]]]]]].
  exists ws1, fm, ws2. unfold Re.group. rewrite Hg.
  repeat split; try assumption.
  rewrite Hc. repeat (rewrite length_app || cbn [length]).
  change (length (lit "---")) with 3. lia.
Qed.

(** X3.  When [parse_frontmatter] finds front matter, the document is
    three hyphens, white space, a newline, the block, a newline, three
    hyphens, white space, a newline and then the body it returns; the
    two fields are read from that block.  So the body is a proper end
    piece of the document, at least nine characters shorter. *)
Theorem front_matter_shape (content body : text) (data : frontmatter) :
  parse_frontmatter content = (Some data, body, None) ->
  exists ws1 block ws2,
    content = lit "---" ++ ws1 ++ newline :: block ++ newline
              :: lit "---" ++ ws2 ++ newline :: body
    /\ forallb Py.isspace ws1 = true
    /\ forallb Py.isspace ws2 = true
    /\ data = FrontMatter (extract_name block) (extract_description block)
    /\ length body + 9 <= length content.
Proof. apply parsed_document_shape. Qed.

Lemma front_matter_shape_witness :
  exists ws1 block ws2,
    complete_manifest
    = lit "---" ++ ws1 ++ newline :: block ++ newline
      :: lit "---" ++ ws2 ++ newline :: lit "# Auto-Invocation"
    /\ forallb Py.isspace ws1 = true
    /\ forallb Py.isspace ws2 = true.
Proof.
  assert (P : exists data,
             parse_frontmatter complete_manifest
             = (Some data, lit "# Auto-Invocation", None))
    by (eexists; vm_compute; reflexivity).
  destruct P as [data P].
  destruct (front_matter_shape complete_manifest _ data P)
    as [ws1 [block [ws2 [H [H1 [H2 _]]]]]].
  exists ws1, block, ws2. repeat split; assumption.
Defined.

(** ** Searching a block line by line *)

Lemma flat_map_nil {A B : Type} (f : A -> list B) (l : list A) :
  (forall x, In x l -> f x = []) -> flat_map f l = [].
Proof.
  intros H. induction l as [|a l IH]; [reflexivity|].
  cbn [flat_map]. rewrite (H a) by now left.
  apply IH. intros x Hx. apply H. now right.
Qed.

Lemma key_line_needs_bol (key : string) : needs_bol (key_line_re key).
Proof.
  intros c sn rs g Hc. unfold key_line_re. cbn [Re.Seq].
  rewrite run_bol_cat.
  cbn [Re.at_bol Re.seen Re.MULTILINE multiline andb].
  now destruct (Ascii.eqb_spec c newline).
Qed.

Lemma desc_block_needs_bol : needs_bol DESC_BLOCK_RE.
Proof.
  intros c sn rs g Hc. unfold DESC_BLOCK_RE. cbn [Re.Seq].
  rewrite run_bol_cat.
  cbn [Re.at_bol Re.seen Re.MULTILINE multiline andb].
  now destruct (Ascii.eqb_spec c newline).
Qed.

Section LineByLine.

Variable r : Re.regex.
Hypothesis r_needs_bol : needs_bol r.

(** Inside a line the search moves on to the next line. *)
Lemma search_skips_rest_of_line (l : text) : forall c sn more,
  no_newline l = true -> c <> newline ->
  Re.scan multiline r (c :: sn) (l ++ newline :: more)
  = Re.scan multiline r (newline :: rev l ++ c :: sn) more.
Proof.
  induction l as [|x l IH]; intros c sn more Hl Hc.
  - cbn [app rev Re.scan]. now rewrite r_needs_bol.
  - apply no_newline_cons in Hl as [Hx Hl].
    cbn [app Re.scan]. rewrite r_needs_bol by assumption.
    rewrite IH by assumption. cbn [rev]. now rewrite <- app_assoc.
Qed.

(** Inside the last line the search finds nothing. *)
Lemma search_ends_in_last_line (l : text) : forall c sn,
  no_newline l = true -> c <> newline ->
  Re.scan multiline r (c :: sn) l = None.
Proof.
  induction l as [|x l IH]; intros c sn Hl Hc.
  - cbn [Re.scan]. now rewrite r_needs_bol.
  - apply no_newline_cons in Hl as [Hx Hl].
    cbn [Re.scan]. rewrite r_needs_bol by assumption. now apply IH.
Qed.

Lemma search_skips_line (l : text) sn more :
  no_newline l = true -> no_match_at_line r l ->
  Re.scan multiline r sn (l ++ newline :: more)
  = Re.scan multiline r (newline :: rev l ++ sn) more.
Proof.
  intros Hl Hno.
  assert (H0 : Re.run multiline r (Re.Cursor sn (l ++ newline :: more) None)
               = []) by (now apply Hno).
  destruct l as [|x l].
  - cbn [app rev Re.scan] in *. now rewrite H0.
  - apply no_newline_cons in Hl as [Hx Hl].
    cbn [app Re.scan] in *. rewrite H0.
    rewrite search_skips_rest_of_line by assumption.
    cbn [rev]. now rewrite <- app_assoc.
Qed.

Lemma search_fails_in_last_line (l : text) sn :
  no_newline l = true -> no_match_at_line r l ->
  Re.scan multiline r sn l = None.
Proof.
  intros Hl Hno.
  assert (H0 : Re.run multiline r (Re.Cursor sn (l ++ []) None) = [])
    by (now apply Hno).
  rewrite app_nil_r in H0.
  destruct l as [|x l].
  - cbn [Re.scan]. now rewrite H0.
  - apply no_newline_cons in Hl as [Hx Hl].
    cbn [Re.scan]. rewrite H0. now apply search_ends_in_last_line.
Qed.

(** Lines at whose start the pattern does not match are searched in
    vain. *)
Lemma search_fails_in_lines (lines : list text) : forall sn,
  lines <> [] ->
  Forall (fun l => no_newline l = true /\ no_match_at_line r l) lines ->
  Re.scan multiline r sn (join_lines lines) = None.
Proof.
  induction lines as [|l lines IH]; intros sn Hne H; [contradiction|].
  inversion H as [|? ? [Hl Hno] H']; subst.
  destruct lines as [|l' lines].
  - cbn. now apply search_fails_in_last_line.
  - rewrite join_lines_cons by discriminate.
    rewrite search_skips_line by assumption.
    apply IH; [discriminate | assumption].
Qed.

(** The lines before the first one at which the pattern can match are
    passed over. *)
Lemma search_reaches_line (before : list text) : forall sn target after,
  Forall (fun l => no_newline l = true /\ no_match_at_line r l) before ->
  exists sn',
    Re.at_bol multiline (Re.Cursor sn' [] None)
    = Re.at_bol multiline (Re.Cursor sn [] None)
      || match before with [] => false | _ => true end
    /\ Re.scan multiline r sn (join_lines (before ++ target :: after))
       = Re.scan multiline r sn' (join_lines (target :: after)).
Proof.
  induction before as [|l before IH]; intros sn target after H.
  - exists sn. split; [now rewrite orb_false_r | reflexivity].
  - inversion H as [|? ? [Hl Hno] Hb]; subst.
    cbn [app]. rewrite join_lines_cons by (destruct before; discriminate).
    rewrite search_skips_line by assumption.
    destruct (IH (newline :: rev l ++ sn) target after Hb) as [sn' [E1 E2]].
    exists sn'. split; [|exact E2].
    rewrite E1. cbn [Re.at_bol Re.seen]. rewrite Ascii.eqb_refl.
    cbn. now rewrite orb_true_r.
Qed.

End LineByLine.

Lemma key_not_at_line (key : string) (l more : text) :
  no_newline (lit key) = true ->
  Py.startswith (lit key) l = false ->
  match more with [] => True | x :: _ => x = newline end ->
  lits_match multiline (lit key) (l ++ more) = false.
Proof.
  intros Hk Hl Hmore. rewrite lits_match_exact by reflexivity.
  destruct more as [|x more].
  - now rewrite app_nil_r.
  - subst x.
    destruct (Py.startswith (lit key) (l ++ newline :: more)) eqn:E;
      [|reflexivity].
    apply startswith_within_line in E; [congruence | assumption].
Qed.

Lemma line_without_key_line (key : string) (l : text) :
  no_newline (lit key) = true ->
  line_without key l ->
  no_newline l = true /\ no_match_at_line (key_line_re key) l.
Proof.
  intros Hk [Hl Hp]. split; [exact Hl|].
  intros sn more Hmore. unfold key_line_re. cbn [Re.Seq].
  rewrite run_bol_cat.
  destruct (Re.at_bol multiline (Re.Cursor sn (l ++ more) None));
    [|reflexivity].
  now rewrite run_word_cat, key_not_at_line.
Qed.

Lemma line_without_desc_block (l : text) :
  line_without "description:" l ->
  no_newline l = true /\ no_match_at_line DESC_BLOCK_RE l.
Proof.
  intros [Hl Hp]. split; [exact Hl|].
  intros sn more Hmore. unfold DESC_BLOCK_RE. cbn [Re.Seq].
  rewrite run_bol_cat.
  destruct (Re.at_bol multiline (Re.Cursor sn (l ++ more) None));
    [|reflexivity].
  rewrite run_word_cat, key_not_at_line; auto.
Qed.

(** At the start of a line the key, white space, a visible character
    and the rest of the line: the preferred match of the key pattern
    puts the line from its first visible character on in group 1. *)
Lemma key_line_matches (key : string) sn ws c tl more :
  Re.at_bol multiline (Re.Cursor sn [] None) = true ->
  forallb Py.isspace ws = true ->
  Py.isspace c = false ->
  no_newline (c :: tl) = true ->
  match more with [] => True | x :: _ => x = newline end ->
  exists m others,
    Re.run multiline (key_line_re key)
           (Re.Cursor sn (lit key ++ (ws ++ c :: tl) ++ more) None)
    = m :: others
    /\ Re.group m = c :: tl.
Proof.
  intros Hbol Hws Hc Hline Hmore.
  apply no_newline_cons in Hline as [Hcn Htl].
  unfold key_line_re. cbn [Re.Seq]. rewrite run_bol_cat.
  change (Re.at_bol multiline
            (Re.Cursor sn (lit key ++ (ws ++ c :: tl) ++ more) None))
    with (Re.at_bol multiline (Re.Cursor sn [] None)).
  rewrite Hbol, run_word_cat, lits_match_self.
  rewrite firstn_length_app, skipn_length_app, run_cat.
  rewrite <- app_assoc. cbn [app].
  destruct (run_star_greedy_hd multiline Re.Space Py.isspace
              (single_space multiline) ws
              (rev (lit key) ++ sn) (c :: tl ++ more) None Hws Hc)
    as [others1 ->].
  cbn [flat_map]. rewrite run_cat.
  change (Re.run multiline (Re.Group (Re.Plus true Re.Dot)) ?s)
    with (map (Re.capture s) (Re.run multiline (Re.Plus true Re.Dot) s)).
  assert (Hdc : Re.dot_matches multiline c = true).
  { unfold Re.dot_matches. cbn [Re.DOTALL multiline orb].
    now destruct (Ascii.eqb_spec c newline). }
  assert (Hdm : match more with
                | [] => True
                | x :: _ => Re.dot_matches multiline x = false
                end).
  { destruct more as [|x more]; [exact I|]. subst x.
    unfold Re.dot_matches. cbn [Re.DOTALL multiline orb].
    now rewrite Ascii.eqb_refl. }
  destruct (run_plus_greedy_hd multiline Re.Dot (Re.dot_matches multiline)
              (single_dot multiline) c tl
              (rev ws ++ rev (lit key) ++ sn) more None Hdc Htl Hdm)
    as [others2 ->].
  cbn [map flat_map]. rewrite run_eol_eps.
  assert (Heol : Re.at_eol multiline
                   (Re.capture
                      (Re.Cursor (rev ws ++ rev (lit key) ++ sn)
                                 (c :: tl ++ more) None)
                      (Re.Cursor (rev (c :: tl)
                                  ++ rev ws ++ rev (lit key) ++ sn)
                                 more None)) = true).
  { unfold Re.at_eol, Re.capture. cbn [Re.rest].
    destruct more as [|x more]; [reflexivity|]. subst x.
    now rewrite Ascii.eqb_refl. }
  rewrite Heol. cbn [app]. eexists. eexists. split; [reflexivity|].
  unfold Re.group, Re.capture. cbn [Re.group1 Re.rest].
  change (c :: tl ++ more) with ((c :: tl) ++ more).
  now rewrite length_app, Nat.add_sub, firstn_length_app.
Qed.

(** Group 1 of a key pattern never holds a newline. *)
Lemma key_line_group (key : string) (s m : Re.cursor) :
  In m (Re.run multiline (key_line_re key) s) ->
  exists g, Re.group1 m = Some g /\ no_newline g = true.
Proof.
  unfold key_line_re. cbn [Re.Seq]. rewrite run_bol_cat.
  destruct (Re.at_bol multiline s); [|intros []].
  destruct s as [sn rs g0]. rewrite run_word_cat.
  destruct (lits_match multiline (lit key) rs); [|intros []].
  rewrite run_cat, in_flat_map. intros [s2 [_ H]].
  rewrite run_cat, in_flat_map in H. destruct H as [s3 [H3 Hm]].
  rewrite run_eol_eps in Hm.
  destruct (Re.at_eol multiline s3); [|destruct Hm].
  destruct Hm as [<- | []].
  change (Re.run multiline (Re.Group (Re.Plus true Re.Dot)) s2)
    with (map (Re.capture s2) (Re.run multiline (Re.Plus true Re.Dot) s2))
    in H3.
  apply in_map_iff in H3 as [s4 [<- H4]].
  destruct s2 as [sn2 rs2 g2].
  apply (run_plus_sound _ _ _ (single_dot multiline)) in H4
    as [w [_ [Hw [E1 _]]]].
  exists w. split; [|exact Hw].
  unfold Re.capture. cbn [Re.group1 Re.rest]. f_equal.
  rewrite E1, length_app, Nat.add_sub. apply firstn_length_app.
Qed.

(** ** Keys that are absent, and the description on one line *)

Lemma extract_name_none (lines : list text) :
  Forall (line_without "name:") lines ->
  extract_name (join_lines lines) = None.
Proof.
  intros H. destruct lines as [|l lines]; [reflexivity|].
  unfold extract_name, Re.search.
  change NAME_LINE_RE with (key_line_re "name:").
  rewrite (search_fails_in_lines _ (key_line_needs_bol "name:"));
    [reflexivity | discriminate |].
  eapply Forall_impl; [|exact H].
  intros a. now apply line_without_key_line.
Qed.

Lemma extract_description_none (lines : list text) :
  Forall (line_without "description:") lines ->
  extract_description (join_lines lines) = None.
Proof.
  intros H. destruct lines as [|l lines]; [reflexivity|].
  unfold extract_description, Re.search.
  rewrite (search_fails_in_lines _ desc_block_needs_bol);
    [| discriminate
     | eapply Forall_impl; [|exact H]; intros a;
       apply line_without_desc_block].
  change DESC_INLINE_RE with (key_line_re "description:").
  rewrite (search_fails_in_lines _ (key_line_needs_bol "description:"));
    [reflexivity | discriminate |].
  eapply Forall_impl; [|exact H].
  intros a. now apply line_without_key_line.
Qed.

(** X6.  A block none of whose lines begins with [name:] yields no
    name, and a block none of whose lines begins with [description:]
    yields no description: the key is left out of the result.  A key
    that is indented is not seen. *)
Theorem keys_need_their_line (lines : list text) :
  (Forall (line_without "name:") lines ->
   extract_name (join_lines lines) = None)
  /\ (Forall (line_without "description:") lines ->
      extract_description (join_lines lines) = None).
Proof.
  split; [apply extract_name_none | apply extract_description_none].
Qed.

Lemma keys_need_their_line_witness :
  extract_name (join_lines [lit "title: x"; lit " name: indented"]) = None
  /\ extract_description (join_lines [lit "title: x"; lit "desc: y"]) = None.
Proof.
  split.
  - apply (proj1 (keys_need_their_line
                    [lit "title: x"; lit " name: indented"])).
    repeat constructor.
  - apply (proj2 (keys_need_their_line [lit "title: x"; lit "desc: y"])).
    repeat constructor.
Defined.

Lemma block_marker_char (x : ascii) :
  Re.in_class [(ch ">", ch ">"); (ch "|", ch "|")] x = true ->
  (x = ch ">" \/ x = ch "|") /\ Py.isspace x = false.
Proof.
  destruct x as [[] [] [] [] [] [] [] []]; intros H;
    solve [discriminate H | split; [auto | reflexivity]].
Qed.

Lemma space_prefix_split (ws : text) : forall w R c X,
  forallb Py.isspace ws = true -> Py.isspace c = false ->
  forallb Py.isspace w = true ->
  ws ++ c :: X = w ++ R ->
  exists ws', R = ws' ++ c :: X /\ forallb Py.isspace ws' = true.
Proof.
  induction ws as [|a ws IH]; intros w R c X Hws Hc Hw E.
  - destruct w as [|b w].
    + exists []. split; [cbn [app] in *; congruence | reflexivity].
    + cbn [app] in E. injection E as <- _. cbn [forallb] in Hw.
      rewrite Hc in Hw. discriminate.
  - cbn [forallb] in Hws. apply andb_true_iff in Hws as [Ha Hws].
    destruct w as [|b w].
    + exists (a :: ws). split; [cbn [app] in *; congruence|].
      cbn [forallb]. now rewrite Ha, Hws.
    + cbn [app] in E. injection E as <- E. cbn [forallb] in Hw.
      apply andb_true_iff in Hw as [_ Hw]. now apply (IH w R c X).
Qed.

(** The block pattern does not match at a [description:] line whose
    first visible character is neither of the two block markers. *)
Lemma block_fails_at_inline_line (ws : text) (c : ascii) (tl : text) :
  forallb Py.isspace ws = true ->
  Py.isspace c = false ->
  c <> ch ">" -> c <> ch "|" ->
  no_match_at_line DESC_BLOCK_RE (lit "description:" ++ ws ++ c :: tl).
Proof.
  intros Hws Hc Hgt Hbar sn more _. unfold DESC_BLOCK_RE. cbn [Re.Seq].
  rewrite run_bol_cat.
  destruct (Re.at_bol multiline _); [|reflexivity].
  rewrite <- app_assoc.
  rewrite run_word_cat, lits_match_self, skipn_length_app, run_cat.
  apply flat_map_nil. intros s2 H2.
  apply (run_star_sound _ _ _ (single_space multiline)) in H2
    as [w [Hw [E _]]].
  rewrite <- app_assoc in E. cbn [app] in E.
  destruct (space_prefix_split ws w (Re.rest s2) c (tl ++ more)
                               Hws Hc Hw E) as [ws' [E' Hws']].
  destruct s2 as [sn2 rs2 g2]. cbn [Re.rest] in E'. subst rs2.
  rewrite (run_single_cat _ _ _ _ _ _ _
             (single_class multiline [(ch ">", ch ">"); (ch "|", ch "|")])).
  destruct ws' as [|a ws']; cbn [app].
  - destruct (Re.in_class _ c) eqn:K; [|reflexivity].
    apply block_marker_char in K as [[-> | ->] _]; contradiction.
  - destruct (Re.in_class _ a) eqn:K; [|reflexivity].
    apply block_marker_char in K as [_ K]. cbn [forallb] in Hws'.
    rewrite K in Hws'. discriminate.
Qed.

(** X5.  In a block where one line begins with [description:], no
    other line does, and the first visible character after the colon is
    neither [>] nor [|], the description is the rest of that line
    without the white space around it and then without the quote
    characters at either end. *)
Theorem description_from_its_line (before after : list text)
        (ws : text) (c : ascii) (tl : text) :
  Forall (line_without "description:") before ->
  Forall (line_without "description:") after ->
  forallb Py.isspace ws = true ->
  Py.isspace c = false ->
  c <> ch ">" -> c <> ch "|" ->
  no_newline (ws ++ c :: tl) = true ->
  extract_description
    (join_lines (before ++ (lit "description:" ++ ws ++ c :: tl) :: after))
  = Some (Py.strip_chars quotes (Py.strip (ws ++ c :: tl))).
Proof.
  intros Hb Ha Hws Hc Hgt Hbar Hnl.
  assert (Hnl' : no_newline (c :: tl) = true).
  { unfold no_newline in *. rewrite forallb_app in Hnl.
    now apply andb_true_iff in Hnl as [_ Hnl]. }
  unfold extract_description, Re.search.
  rewrite (search_fails_in_lines _ desc_block_needs_bol).
  2:{ destruct before; discriminate. }
  2:{ apply Forall_app. split.
      - eapply Forall_impl; [|exact Hb]. intros a.
        apply line_without_desc_block.
      - constructor.
        + split; [|now apply block_fails_at_inline_line].
          unfold no_newline. rewrite forallb_app. apply andb_true_iff.
          split; [reflexivity | exact Hnl].
        + eapply Forall_impl; [|exact Ha]. intros a.
          apply line_without_desc_block. }
  change DESC_INLINE_RE with (key_line_re "description:").
  destruct (search_reaches_line _ (key_line_needs_bol "description:")
              before [] (lit "description:" ++ ws ++ c :: tl) after)
    as [sn' [Hbol Hskip]].
  { eapply Forall_impl; [|exact Hb]. intros a.
    now apply line_without_key_line. }
  cbn [Re.at_bol Re.seen orb] in Hbol.
  unfold text in *. rewrite Hskip. clear Hskip.
  assert (E : exists more,
             join_lines ((lit "description:" ++ ws ++ c :: tl) :: after)
             = lit "description:" ++ (ws ++ c :: tl) ++ more
             /\ match more with [] => True | x :: _ => x = newline end).
  { destruct after as [|l after].
    - exists []. split; [|exact I]. unfold join_lines. cbn [Py.join].
      now rewrite app_nil_r.
    - exists (newline :: join_lines (l :: after)). split; [|reflexivity].
      rewrite join_lines_cons by discriminate. now rewrite <- app_assoc. }
  destruct E as [more [-> Hmore]].
  destruct (key_line_matches "description:" sn' ws c tl more
                             Hbol Hws Hc Hnl' Hmore)
    as [m [others [Hrun Hg]]].
  assert (S : Re.scan multiline (key_line_re "description:") sn'
                      (lit "description:" ++ (ws ++ c :: tl) ++ more)
              = Some m).
  { destruct (lit "description:" ++ (ws ++ c :: tl) ++ more);
      cbn [Re.scan]; now rewrite Hrun. }
  rewrite S, Hg. now rewrite strip_leading_spaces.
Qed.

Lemma description_from_its_line_witness :
  extract_description
    (join_lines ([lit "name: x"]
                 ++ (lit "description:" ++ lit " " ++ ch "'" :: lit "Fix it' ")
                 :: [lit "license: MIT"]))
  = Some (lit "Fix it").
Proof.
  refine (description_from_its_line
            [lit "name: x"] [lit "license: MIT"]
            (lit " ") (ch "'") (lit "Fix it' ") _ _ _ _ _ _ _).
  - repeat constructor.
  - repeat constructor.
  - reflexivity.
  - reflexivity.
  - discriminate.
  - discriminate.
  - reflexivity.
Defined.

Lemma visible_not_newline (c : ascii) :
  negb (Py.isspace c) = true -> negb (Ascii.eqb c newline) = true.
Proof.
  destruct (Ascii.eqb_spec c newline) as [-> | _]; [|reflexivity].
  intros H. discriminate H.
Qed.

Lemma split_acc_words (s : text) : forall cur,
  forallb (fun c => negb (Py.isspace c)) cur = true ->
  Forall is_word (Py.split_acc cur s).
Proof.
  assert (W : forall cur, cur <> [] ->
                          forallb (fun c => negb (Py.isspace c)) cur = true ->
                          is_word (rev cur)).
  { intros cur Hne Hc. split.
    - intros E. apply Hne. rewrite <- (rev_involutive cur), E. reflexivity.
    - now rewrite forallb_rev. }
  induction s as [|c s IH]; intros cur Hcur; cbn [Py.split_acc].
  - destruct cur as [|x cur]; [constructor|].
    constructor; [|constructor]. now apply W.
  - destruct (Py.isspace c) eqn:Hc.
    + destruct cur as [|x cur]; [now apply IH|].
      constructor; [now apply W | now apply IH].
    + apply IH. cbn [forallb]. now rewrite Hc, Hcur.
Qed.

Lemma split_words (s : text) : Forall is_word (Py.split s).
Proof. now apply split_acc_words. Qed.

Lemma join_words_one_line (words : list text) :
  Forall is_word words -> no_newline (Py.join (lit " ") words) = true.
Proof.
  induction words as [|w words IH]; intros H; [reflexivity|].
  inversion H as [|? ? [_ Hw] H']; subst.
  assert (Hwn : no_newline w = true).
  { unfold no_newline. apply forallb_forall. intros c Hc.
    rewrite forallb_forall in Hw. now apply visible_not_newline, Hw. }
  destruct words as [|w' words]; [exact Hwn|].
  change (Py.join (lit " ") (w :: w' :: words))
    with (w ++ lit " " ++ Py.join (lit " ") (w' :: words)).
  unfold no_newline in *. rewrite !forallb_app, Hwn, (IH H'). reflexivity.
Qed.

Lemma extract_description_one_line (fm_text d : text) :
  extract_description fm_text = Some d -> no_newline d = true.
Proof.
  unfold extract_description.
  destruct (Re.search multiline DESC_BLOCK_RE fm_text) as [m|].
  - intros [= <-]. apply join_words_one_line, split_words.
  - destruct (Re.search multiline DESC_INLINE_RE fm_text) as [m|] eqn:E;
      [|discriminate].
    intros [= <-]. apply scan_result in E as [a [b [_ Hin]]].
    change DESC_INLINE_RE with (key_line_re "description:") in Hin.
    apply key_line_group in Hin as [g [Hg Hnl]].
    unfold Re.group. rewrite Hg.
    unfold Py.strip_chars, Py.strip, no_newline.
    now apply forallb_strip, forallb_strip.
Qed.

(** X7.  Neither field that [parse_frontmatter] returns holds a
    newline.  A description in block form is moreover made of words,
    each free of white space, with one space between them: the line
    breaks and the indentation of the block are gone. *)
Theorem fields_are_one_line :
  (forall content data body error,
      parse_frontmatter content = (Some data, body, error) ->
      no_newline (get_or_empty (fm_name data)) = true
      /\ no_newline (get_or_empty (fm_description data)) = true)
  /\ (forall fm_text m,
        Re.search multiline DESC_BLOCK_RE fm_text = Some m ->
        extract_description fm_text
        = Some (Py.join (lit " ") (Py.split (Py.strip (Re.group m))))
        /\ Forall is_word (Py.split (Py.strip (Re.group m)))).
Proof.
  split.
  - intros content data body error. unfold parse_frontmatter.
    destruct (Re.rmatch dotall FRONTMATTER_RE content) as [m|];
      [|discriminate].
    intros [= <- _ _]. cbn [fm_name fm_description]. split.
    + destruct (extract_name (Re.group m)) as [n|] eqn:E; [|reflexivity].
      exact (extract_name_no_newline _ _ E).
    + destruct (extract_description (Re.group m)) as [d|] eqn:E;
        [|reflexivity].
      exact (extract_description_one_line _ _ E).
  - intros fm_text m H. unfold extract_description. rewrite H.
    split; [reflexivity | apply split_words].
Qed.

Lemma fields_are_one_line_witness :
  let block := lit "description: >" ++ newline :: lit "  Fix   messy"
               ++ newline :: lit "  code." in
  extract_description block = Some (lit "Fix messy code.").
Proof.
  intro block.
  assert (S : exists m, Re.search multiline DESC_BLOCK_RE block = Some m)
    by (eexists; vm_compute; reflexivity).
  destruct S as [m S].
  destruct (proj2 fields_are_one_line block m S) as [E _].
  rewrite E. revert S. vm_compute. intros [= <-]. reflexivity.
Defined.

(** ** When front matter is recognised *)

Lemma lits_match_own (fl : Re.flags) (w more : text) :
  Re.IGNORECASE fl = false -> lits_match fl w (w ++ more) = true.
Proof.
  intros H. rewrite lits_match_exact by assumption.
  apply startswith_spec. now exists more.
Qed.

Lemma forallb_dotall (s : text) : forallb (Re.dot_matches dotall) s = true.
Proof. induction s as [|c s IH]; [reflexivity | exact IH]. Qed.

(** A document of the shape of front matter has a match of the
    pattern. *)
Lemma frontmatter_match_exists (ws1 block ws2 rest : text) :
  forallb Py.isspace ws1 = true ->
  forallb Py.isspace ws2 = true ->
  Re.run dotall FRONTMATTER_RE
         (Re.start (lit "---" ++ ws1 ++ newline :: block ++ newline
                    :: lit "---" ++ ws2 ++ newline :: rest)) <> [].
Proof.
  intros H1 H2. unfold FRONTMATTER_RE, Re.start. cbn [Re.Seq].
  rewrite run_bol_cat. cbn [Re.at_bol Re.seen].
  rewrite run_word_cat, lits_match_own, skipn_length_app by reflexivity.
  rewrite run_cat. apply flat_map_nonempty. eexists. split.
  { apply (run_star_complete _ _ _ (single_space dotall)). exact H1. }
  rewrite (run_single_cat _ _ _ _ _ _ _ (single_lit dotall newline)).
  unfold Re.lit_matches at 1. cbn [Re.IGNORECASE dotall].
  rewrite Ascii.eqb_refl.
  rewrite run_cat. apply flat_map_nonempty. eexists. split.
  { change (Re.run dotall (Re.Group (Re.Star false Re.Dot)) ?s)
      with (map (Re.capture s) (Re.run dotall (Re.Star false Re.Dot) s)).
    apply in_map.
    apply (run_star_complete _ _ _ (single_dot dotall) false block).
    apply forallb_dotall. }
  unfold Re.capture. cbn [Re.seen Re.rest].
  rewrite (run_single_cat _ _ _ _ _ _ _ (single_lit dotall newline)).
  unfold Re.lit_matches at 1. cbn [Re.IGNORECASE dotall].
  rewrite Ascii.eqb_refl.
  rewrite run_word_cat, lits_match_own, skipn_length_app by reflexivity.
  rewrite run_cat. apply flat_map_nonempty. eexists. split.
  { apply (run_star_complete _ _ _ (single_space dotall)). exact H2. }
  rewrite (run_single_cat _ _ _ _ _ _ _ (single_lit dotall newline)).
  unfold Re.lit_matches at 1. cbn [Re.IGNORECASE dotall].
  rewrite Ascii.eqb_refl. cbn [Re.run]. discriminate.
Qed.

(** X13.  Front matter is recognised, and critical check 2 passes,
    exactly for the documents that begin with three hyphens, white
    space and a newline and go on, after any text, with a newline,
    three hyphens, white space and a newline.  A closing line that is
    not ended by a newline does not count. *)
Theorem front_matter_recognised_iff (skill_path : directory) (doc : text) :
  (passed (check_at 1 (validate_critical skill_path (Some doc))) = true
   <-> fst (fst (parse_frontmatter doc)) <> None)
  /\ (fst (fst (parse_frontmatter doc)) <> None
      <-> exists ws1 block ws2 rest,
            doc = lit "---" ++ ws1 ++ newline :: block ++ newline
                  :: lit "---" ++ ws2 ++ newline :: rest
            /\ forallb Py.isspace ws1 = true
            /\ forallb Py.isspace ws2 = true).
Proof.
  split.
  - destruct doc as [|x doc].
    + split; [discriminate | intros H; now contradiction H].
    + unfold validate_critical.
      destruct (parse_frontmatter (x :: doc)) as [[[d|] body] error];
        cbn; split; congruence.
  - split.
    + intros H.
      destruct (parse_frontmatter doc) as [[[d|] body] error] eqn:E;
        [|now contradiction H].
      destruct (parse_error_iff _ _ _ _ E) as [[D _] | [d' [_ ->]]];
        [discriminate D|].
      destruct (parsed_document_shape _ _ _ E)
        as [ws1 [block [ws2 [Hc [H1 [H2 _]]]]]].
      now exists ws1, block, ws2, body.
    + intros [ws1 [block [ws2 [rest [-> [H1 H2]]]]]].
      unfold parse_frontmatter.
      pose proof (frontmatter_match_exists ws1 block ws2 rest H1 H2) as R.
      unfold Re.rmatch.
      destruct (Re.run dotall FRONTMATTER_RE _); [contradiction|].
      cbn. discriminate.
Qed.

(** ** A document without front matter *)

(** X14.  When [SKILL.md] was read but front matter is not recognised
    in it, a run that reaches its end passes critical check 1, fails
    critical checks 2, 3 and 4 and the two quality checks on the
    description, and judges the whole document as the body: critical
    check 5 asks for a visible character in it and the token check
    counts all of it.  The score is then at most 17 and the exit status
    is 1. *)
Theorem document_without_front_matter (skill_path : directory)
        (c : completed) (doc : text) :
  main skill_path = Ok c ->
  skill_md skill_path = File (Ok doc) ->
  fst (fst (parse_frontmatter doc)) = None ->
  map passed (firstn 5 (all_checks c))
  = [true; false; false; false; has_visible doc]
  /\ passed (check_at 10 (all_checks c)) = false
  /\ passed (check_at 11 (all_checks c)) = (length doc / 4 <? 5000)
  /\ passed (check_at 12 (all_checks c)) = false
  /\ score c <= 17
  /\ exit_code c = 1.
Proof.
  intros H Hmd Hp.
  destruct (main_parts _ _ H)
    as [content [warned [body [description [structure
       [Hr [Hq [Hs [Hall [_ [Hscore [_ Hexit]]]]]]]]]]]].
  rewrite Hmd in Hr. cbn in Hr. injection Hr as <- _.
  assert (Hbd : body = doc /\ description = []).
  { destruct doc as [|x doc]; [cbn in Hq; injection Hq as <- <-; auto|].
    unfold quality_inputs in Hq.
    destruct (parse_frontmatter (x :: doc)) as [[data pbody] error] eqn:E.
    cbn [fst] in Hp. subst data.
    destruct (parse_error_iff _ _ _ _ E) as [[_ [-> _]] | [d [D _]]];
      [|discriminate D].
    injection Hq as <- <-. auto. }
  destruct Hbd as [-> ->].
  assert (Hcrit : map passed (validate_critical skill_path (Some doc))
                  = [true; false; false; false; has_visible doc]
                  /\ sum_of pointsAwarded
                            (validate_critical skill_path (Some doc)) <= 6).
  { destruct doc as [|x doc].
    - cbn [validate_critical map passed]. rewrite Hmd. split; [reflexivity|].
      cbn. lia.
    - unfold validate_critical.
      destruct (parse_frontmatter (x :: doc)) as [[data pbody] error] eqn:E.
      cbn [fst] in Hp. subst data.
      destruct (parse_error_iff _ _ _ _ E) as [[_ [-> _]] | [d [D _]]];
        [|discriminate D].
      rewrite Hmd. cbn [isfile map passed get_or_empty truthy andb].
      rewrite strip_truthy. split; [reflexivity|].
      rewrite !sum_of_cons. cbn [pointsAwarded award].
      change (sum_of pointsAwarded []) with 0.
      destruct (has_visible (x :: doc)); cbn; lia. }
  destruct Hcrit as [Hcp Hcs].
  destruct (rows_by_tier (validate_critical skill_path (Some doc)) structure
                         (validate_quality doc [])
                         (critical_length _ _) (structure_length _ _ Hs))
    as [F1 _].
  assert (N : forall i, i < 4 ->
                        check_at (9 + i) (all_checks c)
                        = check_at i (validate_quality doc [])).
  { intros i Hi. unfold check_at.
    rewrite Hall, app_nth2 by (rewrite critical_length; lia).
    rewrite critical_length.
    rewrite app_nth2 by (rewrite (structure_length _ _ Hs); lia).
    rewrite (structure_length _ _ Hs). f_equal. lia. }
  assert (Hsc : score c <= 17).
  { rewrite Hscore, Hall, !sum_of_app.
    pose proof (tier_bound _ _ (structure_all_or_nothing _ _ Hs)
                           (structure_shape _ _ Hs)) as Bs.
    cbn [fold_left Nat.add] in Bs.
    assert (Bq : sum_of pointsAwarded (validate_quality doc []) <= 4).
    { unfold validate_quality. rewrite !sum_of_cons. cbn [pointsAwarded].
      change (sum_of pointsAwarded []) with 0.
      change (any_keyword NATURAL_KEYWORDS (Py.lower [])) with false.
      cbn [andb award length Nat.ltb Nat.leb MIN_DESC_LEN].
      unfold award.
      repeat match goal with
             | |- context [if ?b then _ else _] => destruct b
             end; cbn; lia. }
    lia. }
  split; [now rewrite Hall, F1|].
  split; [change 10 with (9 + 1); rewrite N by lia; reflexivity|].
  split; [change 11 with (9 + 2); rewrite N by lia; reflexivity|].
  split; [change 12 with (9 + 3); rewrite N by lia; reflexivity|].
  split; [exact Hsc|].
  rewrite Hexit. unfold PASS_THRESHOLD.
  destruct (Nat.leb_spec 24 (score c)); [lia | reflexivity].
Qed.

Lemma document_without_front_matter_witness :
  exists c,
    main (Directory (File (Ok (lit "# Title"))) None None NoFile NoFile)
    = Ok c
    /\ score c <= 17 /\ exit_code c = 1.
Proof.
  assert (E : exists c,
             main (Directory (File (Ok (lit "# Title"))) None None
                             NoFile NoFile) = Ok c)
    by (eexists; vm_compute; reflexivity).
  destruct E as [c E]. exists c. split; [exact E|].
  exact (proj2 (proj2 (proj2 (proj2
           (document_without_front_matter _ c (lit "# Title") E
                                          eq_refl eq_refl))))).
Defined.

(** ** Parsing the body a second time *)




